(** * Domain autoscale pipeline: a shallow embedding

    The development follows [automation/domain-autoscale-integration.py]:
    the class [DomainAutoscaleManager] with its four phases, the pipeline
    controller [run_full_pipeline], the report writer [_save_results], the
    notifier [_notify_completion] and [main].

    Conventions of the embedding:
    - a Python [str] is a [string]; a character stands for the code point
      of the same number (0 to 255);
    - a Python [dict] used as a map is a [gmap];
    - the mutable run summary [self.results] and the calls made to the
      tracking layer are threaded through the functions as a [State];
    - everything the script obtains from outside (exit status and output
      of the subprocesses, decoded JSON, success of the file writes, clock
      readings) is read from a [World];
    - a Python exception is a value of [exn], and a computation either
      returns or raises. *)

From Stdlib Require Import ZArith Ascii.
From stdpp Require Import base gmap strings list pretty.

Open Scope string_scope.
Open Scope list_scope.
Open Scope stdpp_scope.

(** ** Python string operations *)

Module PyStr.

Definition code (c : ascii) : N := N_of_ascii c.

(** [str.isspace] on one character, for code points below 256. *)
Definition is_space (c : ascii) : bool :=
  let n := code c in
  ((9 <=? n) && (n <=? 13) || (28 <=? n) && (n <=? 32)
   || (n =? 133) || (n =? 160))%N.

(** Characters at which [str.splitlines] ends a line (a carriage return
    followed by a line feed counts once). *)
Definition is_linebreak (c : ascii) : bool :=
  let n := code c in
  ((10 <=? n) && (n <=? 13) || (28 <=? n) && (n <=? 30) || (n =? 133))%N.

Definition is_lf (c : ascii) : bool := (code c =? 10)%N.
Definition is_cr (c : ascii) : bool := (code c =? 13)%N.

(** [s.startswith(p)] *)
Fixpoint startswith (p s : string) : bool :=
  match p, s with
  | EmptyString, _ => true
  | String _ _, EmptyString => false
  | String a p', String b s' => if Ascii.eqb a b then startswith p' s' else false
  end.

(** [sub in s] *)
Fixpoint contains (sub s : string) : bool :=
  startswith sub s ||
  match s with
  | EmptyString => false
  | String _ s' => contains sub s'
  end.

(** [s.lstrip()] *)
Fixpoint lstrip (s : string) : string :=
  match s with
  | EmptyString => EmptyString
  | String c s' => if is_space c then lstrip s' else s
  end.

(** [s.rstrip()] *)
Fixpoint rstrip (s : string) : string :=
  match s with
  | EmptyString => EmptyString
  | String c s' =>
      match rstrip s' with
      | EmptyString => if is_space c then EmptyString else String c EmptyString
      | r => String c r
      end
  end.

(** [s.strip()] *)
Definition strip (s : string) : string := rstrip (lstrip s).

(** [s[n:]] for [n >= 0] *)
Fixpoint drop (n : nat) (s : string) : string :=
  match n, s with
  | O, _ => s
  | S _, EmptyString => EmptyString
  | S k, String _ s' => drop k s'
  end.

(** One pass of [s.split(sep, maxsplit)] for a non-empty [sep]: [limit]
    is the number of cuts still allowed ([None]: unbounded) and [skip]
    the number of characters of an already matched separator that are
    still to be passed over.  The head of the result is the piece that
    begins at the current position. *)
Fixpoint split_from (sep : string) (limit : option nat) (skip : nat) (s : string)
  : list string :=
  match s with
  | EmptyString => [EmptyString]
  | String c s' =>
      match skip with
      | S k => split_from sep limit k s'
      | O =>
          let may_cut := match limit with Some O => false | _ => true end in
          if may_cut && startswith sep s then
            EmptyString ::
              split_from sep (Nat.pred <$> limit) (String.length sep - 1) s'
          else
            match split_from sep limit O s' with
            | piece :: pieces => String c piece :: pieces
            | [] => [String c EmptyString]
            end
      end
  end.

(** [s.split(sep)] *)
Definition split (sep s : string) : list string := split_from sep None 0 s.

(** [s.split(sep, n)] *)
Definition splitn (sep : string) (n : nat) (s : string) : list string :=
  split_from sep (Some n) 0 s.

(** [s.splitlines()]: [cur] holds the characters of the line being read,
    last one first; [after_cr] tells that the previous character was a
    carriage return, so that a line feed right after it is passed over.
    A last line with no terminator is kept when it is not empty. *)
Fixpoint splitlines_from (after_cr : bool) (cur : string) (s : string)
  : list string :=
  match s with
  | EmptyString =>
      match cur with
      | EmptyString => []
      | _ => [String.rev cur]
      end
  | String c s' =>
      if after_cr && is_lf c then splitlines_from false cur s'
      else if is_linebreak c then
        String.rev cur :: splitlines_from (is_cr c) EmptyString s'
      else splitlines_from false (String c cur) s'
  end.

Definition splitlines (s : string) : list string :=
  splitlines_from false EmptyString s.

(** [str.lower] on one character, for code points below 256. *)
Definition lower_char (c : ascii) : ascii :=
  let n := code c in
  if ((65 <=? n) && (n <=? 90)
      || (192 <=? n) && (n <=? 222) && negb (n =? 215))%N
  then ascii_of_N (n + 32) else c.

Fixpoint lower (s : string) : string :=
  match s with
  | EmptyString => EmptyString
  | String c s' => String (lower_char c) (lower s')
  end.

(** [sep.join(l)] *)
Fixpoint join (sep : string) (l : list string) : string :=
  match l with
  | [] => EmptyString
  | [x] => x
  | x :: rest => x +:+ sep +:+ join sep rest
  end.

End PyStr.

Import PyStr.

(** ** Exceptions and computations *)

(** The exceptions the script can meet.  [text] is what [str(e)] gives:
    for [subprocess.CalledProcessError] the library builds it from the
    command and the exit status. *)
Inductive exn : Type :=
| CalledProcessError (returncode : Z) (stderr : string) (text : string)
| Exception (text : string).

Definition str_exn (e : exn) : string :=
  match e with
  | CalledProcessError _ _ text => text
  | Exception text => text
  end.

Inductive outcome (A : Type) : Type :=
| Returned (a : A)
| Raised (e : exn).
Arguments Returned {A} a.
Arguments Raised {A} e.

#[global] Instance outcome_ret : MRet outcome := λ A a, Returned a.
#[global] Instance outcome_bind : MBind outcome := λ A B f m,
  match m with
  | Returned a => f a
  | Raised e => Raised e
  end.

(** [l[i]] on a Python list *)
Definition index {A} (l : list A) (i : nat) : outcome A :=
  match l !! i with
  | Some x => Returned x
  | None => Raised (Exception "list index out of range")
  end.

(** A computation over a mutable state [S]: it ends in a state, and either
    returns a value or raises. *)
Definition M (S A : Type) : Type := S → S * outcome A.

#[global] Instance M_ret {S} : MRet (M S) := λ A a s, (s, Returned a).
#[global] Instance M_bind {S} : MBind (M S) := λ A B f m s,
  match m s with
  | (s', Returned a) => f a s'
  | (s', Raised e) => (s', Raised e)
  end.

Definition raise {S A} (e : exn) : M S A := λ s, (s, Raised e).
Definition gets {S A} (f : S → A) : M S A := λ s, (s, Returned (f s)).
Definition modify {S} (f : S → S) : M S unit := λ s, (f s, Returned tt).
Definition pure_outcome {S A} (o : outcome A) : M S A := λ s, (s, o).

(** [try: body  except Exception as e: handler e] *)
Definition try_except {S A} (body : M S A) (handler : exn → M S A) : M S A :=
  λ s, match body s with
       | (s', Raised e) => handler e s'
       | r => r
       end.

(** A computation on the outer state, run where a local variable of type
    [L] is in scope. *)
Definition outer {S L A} (m : M S A) : M (S * L) A :=
  λ '(s, l), let '(s', r) := m s in ((s', l), r).

Definition local {S L} (f : L → L) : M (S * L) unit :=
  modify (λ '(s, l), (s, f l)).

(** Runs [m] with a local variable that starts as [l0] and returns the
    variable's last value. *)
Definition returning {S L} (l0 : L) (m : M (S * L) unit) : M S L :=
  λ s, match m (s, l0) with
       | ((s', l), Returned _) => (s', Returned l)
       | ((s', _), Raised e) => (s', Raised e)
       end.

(** ** Data model *)

(** [self.results], the run summary. *)
Record Results : Type := mkResults {
  organization : string;
  domains_fetched : nat;
  domains_categorized : nat;
  domains_assigned : nat;
  domains_verified : nat;
  families_identified : nat;
  success : bool;
  errors : list string
}.

Definition set_domains_fetched (n : nat) (r : Results) : Results :=
  mkResults (organization r) n (domains_categorized r) (domains_assigned r)
    (domains_verified r) (families_identified r) (success r) (errors r).

Definition set_domains_categorized (n : nat) (r : Results) : Results :=
  mkResults (organization r) (domains_fetched r) n (domains_assigned r)
    (domains_verified r) (families_identified r) (success r) (errors r).

Definition set_domains_assigned (n : nat) (r : Results) : Results :=
  mkResults (organization r) (domains_fetched r) (domains_categorized r) n
    (domains_verified r) (families_identified r) (success r) (errors r).

Definition set_domains_verified (n : nat) (r : Results) : Results :=
  mkResults (organization r) (domains_fetched r) (domains_categorized r)
    (domains_assigned r) n (families_identified r) (success r) (errors r).

Definition set_families_identified (n : nat) (r : Results) : Results :=
  mkResults (organization r) (domains_fetched r) (domains_categorized r)
    (domains_assigned r) (domains_verified r) n (success r) (errors r).

Definition set_success (b : bool) (r : Results) : Results :=
  mkResults (organization r) (domains_fetched r) (domains_categorized r)
    (domains_assigned r) (domains_verified r) (families_identified r) b (errors r).

(** [self.results["errors"].append(msg)] *)
Definition errors_append (msg : string) (r : Results) : Results :=
  mkResults (organization r) (domains_fetched r) (domains_categorized r)
    (domains_assigned r) (domains_verified r) (families_identified r) (success r)
    (errors r ++ [msg]).

(** What a run leaves behind outside the process: the calls to
    [log_agent_action], and the attempts of [_save_results] to write the
    report, each with the summary it was given. *)
Inductive Event : Type :=
| AgentAction (action_type description : string)
| ReportSaved (summary : Results)
| ReportNotSaved (summary : Results).

Record State : Type := mkState {
  results : Results;
  trail : list Event
}.

Definition on_results (f : Results → Results) (st : State) : State :=
  mkState (f (results st)) (trail st).

Definition emit (e : Event) (st : State) : State :=
  mkState (results st) (trail st ++ [e]).

(** The configuration document [coaching2100-domain-config.json]; a key
    that is not present is [None].  A family's entry is its ["project"]
    value, if it has one. *)
Record Config : Type := mkConfig {
  domainFamilies : option (gmap string (option string));
  domainAccountId : option string;
  organizationDisplayName : option string
}.

(** The read-only attributes of [self]. *)
Record Manager : Type := mkManager {
  project_id : string;
  agent_id : string;
  root_dir : string;
  config : Config;
  project_mapping : gmap string string
}.

(** How [subprocess.run(..., check=True)] ends. *)
Inductive ProcOutcome : Type :=
| Completed (stdout : string)
| NonZeroExit (returncode : Z) (stderr : string) (text : string)
| NotRun (text : string).

(** What is found at [temp/domain-organization.json] after the dry run:
    nothing, a file that cannot be loaded, or a document with its
    ["families"] entry, if it has one. *)
Inductive OrganizationFile : Type :=
| OrgMissing
| OrgUnreadable (text : string)
| OrgLoaded (families : option (gmap string (list string))).

(** The surroundings of one run. *)
Record World : Type := mkWorld {
  script_root : string;
  config_file : option Config;
  subprocess_run : list string → ProcOutcome;
  json_loads : string → outcome (list string);
  stage_domains : list string → option string;
  organization_file : OrganizationFile;
  write_report : nat → Results → option string;
  strftime_now : string;
  time_now : Z
}.

(** The results of the phases.  The clock readings [start_time],
    [end_time] and [duration_seconds] are not part of the model. *)
Record FetchResults : Type := mkFetchResults {
  fetch_success : bool;
  domains_count : nat;
  fetch_domains_list : option (list string);
  domains_file : option string;
  fetch_error : option string
}.

Record CategorizeResults : Type := mkCategorizeResults {
  categorize_success : bool;
  families_count : nat;
  families : option (gmap string (list string));
  categorize_error : option string
}.

Record AssignResults : Type := mkAssignResults {
  assign_success : bool;
  assignments_count : nat;
  assignments : option (gmap string (list string));
  assign_error : option string
}.

Record VerifyResults : Type := mkVerifyResults {
  verify_success : bool;
  verified_count : nat;
  verified_domains : option (list string);
  failed_domains : option (list string);
  failed_count : option nat;
  verify_error : option string
}.

(** ** DomainAutoscaleManager *)

(** The built-in table of [__init__]. *)
Definition default_project_mapping : gmap string string :=
  list_to_map [
    ("character", "api-for-warp-drive");
    ("command", "api-for-warp-drive");
    ("wing", "api-for-warp-drive");
    ("squadron", "api-for-warp-drive");
    ("brand", "coaching2100-com");
    ("aixtiv", "aixtiv-symphony");
    ("learning", "academy2100-com");
    ("flight", "flight-school");
    ("commerce", "giftshop2100-com");
    ("governance", "api-for-warp-drive")
  ].

Definition empty_config : Config := mkConfig None None None.

Definition fresh_results : Results :=
  mkResults "Coaching2100" 0 0 0 0 0 false [].

(** [DomainAutoscaleManager.__init__]: the attributes of the new object
    and the state the run starts in. *)
Definition __init__ (w : World) (project_id agent_id : string) : Manager * State :=
  let config := default empty_config (config_file w) in
  let project_mapping :=
    match domainFamilies config with
    | Some domain_families =>
        map_fold
          (λ family family_info mapping,
             <[family := default "api-for-warp-drive" family_info]> mapping)
          ∅ domain_families
    | None => default_project_mapping
    end in
  (mkManager project_id agent_id (script_root w) config project_mapping,
   mkState fresh_results
     [AgentAction "domain_autoscale_init"
        ("Initializing Domain Autoscale Manager for Coaching2100 organization (project: "
           +:+ project_id +:+ ")")]).

Definition log_agent_action (action_type description : string) : M State unit :=
  modify (emit (AgentAction action_type description)).

(** [for x in l: acc = f acc x], where [f] may raise. *)
Fixpoint for_each {A B} (f : A → B → outcome A) (acc : A) (l : list B) : outcome A :=
  match l with
  | [] => Returned acc
  | x :: l' => acc' ← f acc x; for_each f acc' l'
  end.

(** Truth value of [current_project], which is [None] or a string. *)
Definition truthy (o : option string) : bool :=
  match o with
  | Some (String _ _) => true
  | _ => false
  end.

(** The dictionary [assignments] before the output is read: one empty
    list for each project of the mapping. *)
Definition initial_assignments (mapping : gmap string string)
  : gmap string (list string) :=
  foldl
    (λ assignments project,
       match assignments !! project with
       | None => <[project := []]> assignments
       | Some _ => assignments
       end)
    ∅ (map_to_list mapping).*2.

(** One turn of the loop of [assign_to_projects] over the output lines. *)
Definition assign_line (acc : option string * gmap string (list string))
    (line : string) : outcome (option string * gmap string (list string)) :=
  let '(current_project, assignments) := acc in
  if contains "Firebase Project" line && contains ":" line then
    name ← index (splitn ":" 1 line) 1;
    mret (Some (strip name), assignments)
  else if truthy current_project && startswith "-" (strip line) then
    let domain := strip (drop 2 (strip line)) in
    match assignments !! default "" current_project with
    | Some domains =>
        mret (current_project,
              <[default "" current_project := domains ++ [domain]]> assignments)
    | None => mret acc
    end
  else mret acc.

(** The parsing part of [assign_to_projects]. *)
Definition parse_assignments (mapping : gmap string string) (stdout : string)
  : outcome (gmap string (list string)) :=
  acc ← for_each assign_line (None, initial_assignments mapping) (splitlines stdout);
  mret acc.2.

(** [sum(len(v) for v in d.values())] *)
Definition total_length (d : gmap string (list string)) : nat :=
  sum_list (length <$> (map_to_list d).*2).

(** One turn of the loop of [verify_domains] over the output lines. *)
Definition verify_line (acc : list string * list string) (line : string)
  : outcome (list string * list string) :=
  let '(verified, failed) := acc in
  if contains "[SUCCESS]" line && contains " - " line then
    before ← index (split " - " line) 0;
    after_tag ← index (split "[SUCCESS]" before) 1;
    mret (verified ++ [strip after_tag], failed)
  else if contains "[FAILED]" line && contains " - " line then
    before ← index (split " - " line) 0;
    after_tag ← index (split "[FAILED]" before) 1;
    mret (verified, failed ++ [strip after_tag])
  else mret acc.

(** The parsing part of [verify_domains]. *)
Definition parse_verification (stdout : string) : outcome (list string * list string) :=
  for_each verify_line ([], []) (splitlines stdout).

Section Methods.

Context (w : World) (self : Manager).

Definition append_error (msg : string) : M State unit :=
  modify (on_results (errors_append msg)).

(** [DomainAutoscaleManager.run_command] *)
Definition run_command (command : list string) (description : string) : M State string :=
  log_agent_action "run_command" description ;;
  match subprocess_run w command with
  | Completed stdout => mret stdout
  | NonZeroExit returncode stderr text =>
      log_agent_action "command_error" ("Command failed: " +:+ stderr) ;;
      append_error ("Command failed: " +:+ stderr) ;;
      raise (CalledProcessError returncode stderr text)
  | NotRun text => raise (Exception text)
  end.

Definition fetch_command : list string :=
  ["node"; "bin/aixtiv.js"; "domain:godaddy:list"; "--refresh";
   "--organization"; "Coaching2100"; "--json"].

Definition organization_path : string :=
  root_dir self +:+ "/temp/domain-organization.json".

Definition categorize_command : list string :=
  ["node"; "bin/aixtiv.js"; "domain:godaddy:organize"; "--dry-run";
   "--output"; organization_path].

Definition assign_command : list string :=
  ["node"; "bin/aixtiv.js"; "domain:godaddy:organize"].

Definition verify_command : list string :=
  ["node"; "scripts/autoscale-verify-firebase-domains.js"].

(** [DomainAutoscaleManager.fetch_domains] *)
Definition fetch_domains : M State FetchResults :=
  log_agent_action "fetch_domains_start"
    "Starting domain fetch from GoDaddy for Coaching2100" ;;
  returning (mkFetchResults false 0 None None None)
    (try_except
       (stdout ← outer (run_command fetch_command
                          "Fetching domains from GoDaddy API for Coaching2100");
        loaded ← pure_outcome (json_loads w stdout);
        let domains_data :=
          match domainAccountId (config self) with
          | Some account_id =>
              List.filter (λ domain, contains (lower account_id) (lower domain)) loaded
          | None => loaded
          end in
        local (λ r, mkFetchResults (fetch_success r) (length domains_data)
                      (Some domains_data) (domains_file r) (fetch_error r)) ;;
        outer (modify (on_results (set_domains_fetched (length domains_data)))) ;;
        match stage_domains w domains_data with
        | Some text => raise (Exception text)
        | None => mret tt
        end ;;
        local (λ r, mkFetchResults true (domains_count r) (fetch_domains_list r)
                      (Some (root_dir self +:+ "/temp/coaching2100-domains.json"))
                      (fetch_error r)) ;;
        outer (log_agent_action "fetch_domains_complete"
                 ("Successfully fetched " +:+ pretty (length domains_data)
                    +:+ " domains for Coaching2100 from GoDaddy")))
       (λ e,
          outer (log_agent_action "fetch_domains_error"
                   ("Domain fetch failed: " +:+ str_exn e)) ;;
          local (λ r, mkFetchResults (fetch_success r) (domains_count r)
                        (fetch_domains_list r) (domains_file r) (Some (str_exn e))) ;;
          outer (append_error ("Domain fetch failed: " +:+ str_exn e)))).

(** [DomainAutoscaleManager.categorize_domains] *)
Definition categorize_domains : M State CategorizeResults :=
  log_agent_action "categorize_domains_start" "Starting domain categorization" ;;
  returning (mkCategorizeResults false 0 None None)
    (try_except
       (outer (run_command categorize_command "Categorizing domains into families") ;;
        match organization_file w with
        | OrgLoaded loaded =>
            let found := default ∅ loaded in
            local (λ r, mkCategorizeResults (categorize_success r) (size found)
                          (Some found) (categorize_error r)) ;;
            outer (modify (on_results (set_families_identified (size found)))) ;;
            outer (modify (on_results (set_domains_categorized (total_length found)))) ;;
            local (λ r, mkCategorizeResults true (families_count r) (families r)
                          (categorize_error r)) ;;
            outer (log_agent_action "categorize_domains_complete"
                     ("Successfully categorized domains into " +:+ pretty (size found)
                        +:+ " families"))
        | OrgUnreadable text => raise (Exception text)
        | OrgMissing =>
            raise (Exception ("Domain organization file not found: "
                                +:+ organization_path))
        end)
       (λ e,
          outer (log_agent_action "categorize_domains_error"
                   ("Domain categorization failed: " +:+ str_exn e)) ;;
          local (λ r, mkCategorizeResults (categorize_success r) (families_count r)
                        (families r) (Some (str_exn e))) ;;
          outer (append_error ("Domain categorization failed: " +:+ str_exn e)))).

(** [DomainAutoscaleManager.assign_to_projects] *)
Definition assign_to_projects : M State AssignResults :=
  log_agent_action "assign_projects_start"
    "Starting domain assignment to Firebase projects" ;;
  returning (mkAssignResults false 0 None None)
    (try_except
       (stdout ← outer (run_command assign_command
                          "Assigning domains to Firebase projects");
        parsed ← pure_outcome (parse_assignments (project_mapping self) stdout);
        local (λ r, mkAssignResults (assign_success r) (total_length parsed)
                      (Some parsed) (assign_error r)) ;;
        outer (modify (on_results (set_domains_assigned (total_length parsed)))) ;;
        local (λ r, mkAssignResults true (assignments_count r) (assignments r)
                      (assign_error r)) ;;
        outer (log_agent_action "assign_projects_complete"
                 ("Successfully assigned " +:+ pretty (total_length parsed)
                    +:+ " domains to projects")))
       (λ e,
          outer (log_agent_action "assign_projects_error"
                   ("Domain assignment failed: " +:+ str_exn e)) ;;
          local (λ r, mkAssignResults (assign_success r) (assignments_count r)
                        (assignments r) (Some (str_exn e))) ;;
          outer (append_error ("Domain assignment failed: " +:+ str_exn e)))).

(** [DomainAutoscaleManager.verify_domains] *)
Definition verify_domains : M State VerifyResults :=
  log_agent_action "verify_domains_start"
    "Starting domain verification with Firebase" ;;
  returning (mkVerifyResults false 0 None None None None)
    (try_except
       (stdout ← outer (run_command verify_command "Verifying domains with Firebase");
        '(verified, failed) ← pure_outcome (parse_verification stdout);
        local (λ r, mkVerifyResults (verify_success r) (length verified)
                      (Some verified) (Some failed) (Some (length failed))
                      (verify_error r)) ;;
        outer (modify (on_results (set_domains_verified (length verified)))) ;;
        local (λ r, mkVerifyResults true (verified_count r) (verified_domains r)
                      (failed_domains r) (failed_count r) (verify_error r)) ;;
        outer (log_agent_action "verify_domains_complete"
                 ("Verification completed: " +:+ pretty (length verified)
                    +:+ " verified, " +:+ pretty (length failed) +:+ " failed")))
       (λ e,
          outer (log_agent_action "verify_domains_error"
                   ("Domain verification failed: " +:+ str_exn e)) ;;
          local (λ r, mkVerifyResults (verify_success r) (verified_count r)
                        (verified_domains r) (failed_domains r) (failed_count r)
                        (Some (str_exn e))) ;;
          outer (append_error ("Domain verification failed: " +:+ str_exn e)))).

(** Number of times [_save_results] has run so far. *)
Fixpoint save_attempts (events : list Event) : nat :=
  match events with
  | [] => 0
  | AgentAction _ _ :: rest => save_attempts rest
  | _ :: rest => S (save_attempts rest)
  end.

(** [DomainAutoscaleManager._save_results]: the directory is made and the
    summary dumped, or one of the two steps raises. *)
Definition _save_results : M State unit :=
  λ st,
    match write_report w (save_attempts (trail st)) (results st) with
    | None => (emit (ReportSaved (results st)) st, Returned tt)
    | Some text => (emit (ReportNotSaved (results st)) st, Raised (Exception text))
    end.

Definition notify_command (r : Results) : list string :=
  ["gcloud"; "firestore"; "documents"; "create";
   "projects/" +:+ project_id self
     +:+ "/databases/(default)/documents/domain-autoscale/" +:+ strftime_now w;
   "--fields=status=" +:+ (if success r then "SUCCESS" else "FAILURE")
     +:+ ",timestamp=" +:+ pretty (time_now w)
     +:+ ",agent=" +:+ agent_id self
     +:+ ",verified=" +:+ pretty (domains_verified r)].

(** [DomainAutoscaleManager._notify_completion] *)
Definition _notify_completion : M State unit :=
  try_except
    (r ← gets results;
     run_command (notify_command r)
       "Updating Firestore with domain autoscale results" ;;
     mret tt)
    (λ e, append_error ("Failed to update Firestore: " +:+ str_exn e)).

(** The gated sequence of phases at the start of [run_full_pipeline]. *)
Definition gated_phases : M State unit :=
  fetch_results ← fetch_domains;
  if fetch_success fetch_results then
    categorize_results ← categorize_domains;
    if categorize_success categorize_results then
      assign_results ← assign_to_projects;
      if assign_success assign_results then
        verify_domains ;; mret tt
      else mret tt
    else mret tt
  else mret tt.

(** [DomainAutoscaleManager.run_full_pipeline] *)
Definition run_full_pipeline : M State Results :=
  log_agent_action "autoscale_pipeline_start"
    "Starting full domain autoscale pipeline" ;;
  try_except
    (gated_phases ;;
     _save_results ;;
     modify (on_results (λ r, set_success (bool_decide (length (errors r) = 0%nat)) r)) ;;
     _notify_completion ;;
     verified ← gets (λ st, domains_verified (results st));
     log_agent_action "autoscale_pipeline_complete"
       ("Domain autoscale pipeline completed successfully: " +:+ pretty verified
          +:+ " domains verified"))
    (λ e,
       log_agent_action "autoscale_pipeline_error" ("Pipeline failed: " +:+ str_exn e) ;;
       append_error ("Pipeline execution failed: " +:+ str_exn e) ;;
       modify (on_results (set_success false)) ;;
       _save_results) ;;
  gets results.

End Methods.

(** ** Command line *)

Inductive PhaseChoice : Type :=
| OnlyFetch | OnlyCategorize | OnlyAssign | OnlyVerify | Full.

(** [main]: the state the process ends in, and the value [main] returns
    (or the exception that leaves it), given the parsed arguments. *)
Definition main (w : World) (arg_project_id arg_agent_id : string)
    (phase : PhaseChoice) : State * outcome Z :=
  let '(manager, st) := __init__ w arg_project_id arg_agent_id in
  (succeeded ←
     match phase with
     | OnlyFetch => r ← fetch_domains w manager; mret (fetch_success r)
     | OnlyCategorize => r ← categorize_domains w manager; mret (categorize_success r)
     | OnlyAssign => r ← assign_to_projects w manager; mret (assign_success r)
     | OnlyVerify => r ← verify_domains w; mret (verify_success r)
     | Full => r ← run_full_pipeline w manager; mret (success r)
     end;
   mret (if succeeded : bool then 0%Z else 1%Z)) st.

(** The exit status of the process: [sys.exit(main())], and 1 when an
    exception leaves [main]. *)
Definition exit_status (w : World) (arg_project_id arg_agent_id : string)
    (phase : PhaseChoice) : Z :=
  match main w arg_project_id arg_agent_id phase with
  | (_, Returned code) => code
  | (_, Raised _) => 1%Z
  end.

(** ** Sample surroundings *)

Definition newline : string := String "010" EmptyString.

Definition sample_assign_lines : list string :=
  ["Firebase Project: proj-a"; "- x.com"; "- y.com"; "Firebase Project: proj-b"; "- z.com"].

Definition sample_verify_lines : list string :=
  ["[SUCCESS] x.com - ok"; "[FAILED] y.com - timeout"].

(** The word at position [i] of a command (empty when there is none). *)
Definition word (command : list string) (i : nat) : string :=
  default "" (command !! i).

(** The five commands are told apart by their first words. *)
Definition sample_subprocess (fetch notify : ProcOutcome) (command : list string)
  : ProcOutcome :=
  if String.eqb (word command 0) "gcloud" then notify
  else if String.eqb (word command 1) "scripts/autoscale-verify-firebase-domains.js"
  then Completed (join newline sample_verify_lines)
  else if String.eqb (word command 2) "domain:godaddy:list" then fetch
  else if String.eqb (word command 3) "--dry-run" then Completed "dry run complete"
  else Completed (join newline sample_assign_lines).

Definition sample_families : gmap string (list string) :=
  {[ "brand" := ["x.com"; "y.com"]; "learning" := ["z.com"] ]}.

(** A run in which the listing and the notification end as given and the
    attempts to write the report end as [report] says; everything else goes
    well. *)
Definition sample_world (fetch notify : ProcOutcome) (report : nat → option string)
  : World :=
  mkWorld "/srv/aixtiv" None
    (sample_subprocess fetch notify)
    (λ _, Returned ["x.com"; "y.com"; "z.com"])
    (λ _, None)
    (OrgLoaded (Some sample_families))
    (λ attempt _, report attempt)
    "20250101-000000" 1735689600.

Definition denied : ProcOutcome :=
  NonZeroExit 1 "permission denied" "Command returned non-zero exit status 1.".

(** ** Vocabulary of the statements *)

(** A line that the Assign loop takes for a project header, and the name
    it reads in it. *)
Definition is_header (line : string) : bool :=
  contains "Firebase Project" line && contains ":" line.

Definition header_name (line : string) : string :=
  strip (default "" (splitn ":" 1 line !! 1%nat)).

(** A line that the Assign loop takes for a domain, and the domain it
    reads in it. *)
Definition is_domain_line (line : string) : bool :=
  negb (is_header line) && startswith "-" (strip line).

Definition domain_of (line : string) : string := strip (drop 2 (strip line)).

(** The name in the last header of [lines], if there is one. *)
Definition most_recent_header (lines : list string) : option string :=
  last (header_name <$> List.filter is_header lines).

(** In words: the domains of the domain lines whose most recently seen
    header names [project], in the order of the lines. *)
Definition domains_under (project : string) (lines : list string) : list string :=
  omap
    (λ i, line ← lines !! i;
          if is_domain_line line
             && bool_decide (most_recent_header (take i lines) = Some project)
          then Some (domain_of line) else None)
    (seq 0 (length lines)).

(** Lines that the Verify loop looks at, the part of a line before the
    first delimiter, and the domain read after a tag. *)
Definition is_success_line (line : string) : bool :=
  contains "[SUCCESS]" line && contains " - " line.

Definition is_failed_line (line : string) : bool :=
  contains "[FAILED]" line && contains " - " line.

Definition before_delimiter (line : string) : string :=
  default "" (split " - " line !! 0%nat).

Definition tagged_domain (tag line : string) : string :=
  strip (default "" (split tag (before_delimiter line) !! 1%nat)).

(** The tag by which a line is classified stands before its first
    delimiter. *)
Definition well_tagged (line : string) : bool :=
  if is_success_line line then contains "[SUCCESS]" (before_delimiter line)
  else if is_failed_line line then contains "[FAILED]" (before_delimiter line)
  else true.

(** The four phases, their commands, and the words that open the entry a
    failed phase adds to [errors]. *)
Inductive Phase : Type := Fetch | Categorize | Assign | Verify.

Definition phase_command (self : Manager) (phase : Phase) : list string :=
  match phase with
  | Fetch => fetch_command
  | Categorize => categorize_command self
  | Assign => assign_command
  | Verify => verify_command
  end.

Definition phase_label (phase : Phase) : string :=
  match phase with
  | Fetch => "Domain fetch"
  | Categorize => "Domain categorization"
  | Assign => "Domain assignment"
  | Verify => "Domain verification"
  end.

(** The state a phase leaves, and whether its result says success. *)
Definition after_phase (w : World) (self : Manager) (phase : Phase) (st : State)
  : State * outcome bool :=
  match phase with
  | Fetch => (r ← fetch_domains w self; mret (fetch_success r)) st
  | Categorize => (r ← categorize_domains w self; mret (categorize_success r)) st
  | Assign => (r ← assign_to_projects w self; mret (assign_success r)) st
  | Verify => (r ← verify_domains w; mret (verify_success r)) st
  end.

(** The action with which a phase announces itself, and whether the trail
    holds an action of that type. *)
Definition start_action (phase : Phase) : string :=
  match phase with
  | Fetch => "fetch_domains_start"
  | Categorize => "categorize_domains_start"
  | Assign => "assign_projects_start"
  | Verify => "verify_domains_start"
  end.

Definition has_action (action_type : string) (events : list Event) : bool :=
  existsb
    (λ e, match e with
          | AgentAction t _ => String.eqb t action_type
          | _ => false
          end)
    events.

Definition invoked (phase : Phase) (events : list Event) : bool :=
  has_action (start_action phase) events.

(** The same surroundings, except that the command of the notifier ends
    as [notify] says. *)
Definition with_notifier (notify : ProcOutcome) (w : World) : World :=
  mkWorld (script_root w) (config_file w)
    (λ command,
       match command with
       | "gcloud" :: _ => notify
       | _ => subprocess_run w command
       end)
    (json_loads w) (stage_domains w) (organization_file w) (write_report w)
    (strftime_now w) (time_now w).

Definition pipeline_start : Event :=
  AgentAction "autoscale_pipeline_start" "Starting full domain autoscale pipeline".

(** A mapping whose projects are those of [sample_assign_lines]. *)
Definition sample_mapping : gmap string string :=
  {[ "alpha" := "proj-a"; "beta" := "proj-b" ]}.

Definition sample_assignments : gmap string (list string) :=
  {[ "proj-a" := ["x.com"; "y.com"]; "proj-b" := ["z.com"] ]}.

(** Surroundings in which every command prints [stdout] and ends well. *)
Definition printing_world (stdout : string) : World :=
  mkWorld "/srv/aixtiv" None (λ _, Completed stdout)
    (λ _, Returned []) (λ _, None) (OrgLoaded None) (λ _ _, None)
    "20250101-000000" 1735689600.

Definition default_manager : Manager :=
  (__init__ (printing_world "") "api-for-warp-drive" "DR_CLAUDE_AUTOMATION").1.

Definition start_state : State :=
  (__init__ (printing_world "") "api-for-warp-drive" "DR_CLAUDE_AUTOMATION").2.

(** The entries a notification that ends as [notify] adds to [errors]. *)
Definition notifier_errors (notify : ProcOutcome) : list string :=
  match notify with
  | Completed _ => []
  | NonZeroExit _ stderr text =>
      ["Command failed: " +:+ stderr; "Failed to update Firestore: " +:+ text]
  | NotRun text => ["Failed to update Firestore: " +:+ text]
  end.

(** The state in which [run_full_pipeline] calls the notifier, given the
    state [st1] the phases left and a report that was written. *)
Definition before_notification (st1 : State) : State :=
  on_results (λ r, set_success (bool_decide (length (errors r) = 0%nat)) r)
    (emit (ReportSaved (results st1)) st1).

(** The state in which the handler of [run_full_pipeline] calls
    [_save_results] again, given the state [st1] the phases left and the
    text of the exception of the first call. *)
Definition before_second_save (st1 : State) (text : string) : State :=
  on_results (set_success false)
    (on_results (errors_append ("Pipeline execution failed: " +:+ text))
       (emit (AgentAction "autoscale_pipeline_error" ("Pipeline failed: " +:+ text))
          (emit (ReportNotSaved (results st1)) st1))).

(** The counts written by the phases after Fetch. *)
Definition later_counts (r : Results) : nat * nat * nat * nat :=
  (domains_categorized r, families_identified r, domains_assigned r, domains_verified r).

(** ** Vocabulary of the further properties *)

(** [st'] has the errors and the trail of [st], and perhaps more after
    them. *)
Definition extends (st st' : State) : Prop :=
  errors (results st) `prefix_of` errors (results st')
  ∧ trail st `prefix_of` trail st'.

(** The entries a failed phase can have added to [errors]: the one of its
    handler, after the one of [run_command] when the command exited
    non-zero. *)
Definition failure_entries (phase : Phase) (es : list string) : Prop :=
  ∃ text,
    es = [phase_label phase +:+ " failed: " +:+ text]
    ∨ ∃ stderr,
        es = ["Command failed: " +:+ stderr; phase_label phase +:+ " failed: " +:+ text].

(** The counts of the run summary that [phase] does not write. *)
Definition counts_outside (phase : Phase) (r : Results) : list nat :=
  match phase with
  | Fetch =>
      [domains_categorized r; families_identified r; domains_assigned r;
       domains_verified r]
  | Categorize => [domains_fetched r; domains_assigned r; domains_verified r]
  | Assign =>
      [domains_fetched r; domains_categorized r; families_identified r;
       domains_verified r]
  | Verify =>
      [domains_fetched r; domains_categorized r; families_identified r;
       domains_assigned r]
  end.

(** Surroundings in which no command can be started. *)
Definition unlaunchable_world : World :=
  mkWorld "/srv/aixtiv" None (λ _, NotRun "[Errno 2] No such file or directory: 'node'")
    (λ _, Returned []) (λ _, None) OrgMissing (λ _ _, None)
    "20250101-000000" 1735689600.

(** The domains Fetch keeps of those it loaded: all of them, or, when an
    account identifier is configured, those that contain it, letter case
    apart. *)
Definition kept_domains (self : Manager) (loaded : list string) : list string :=
  match domainAccountId (config self) with
  | Some account_id =>
      List.filter (λ domain, contains (lower account_id) (lower domain)) loaded
  | None => loaded
  end.

(** Surroundings in which the commands end well but the dry run leaves no
    organization file. *)
Definition world_without_organization : World :=
  mkWorld "/srv/aixtiv" None (λ _, Completed "done")
    (λ _, Returned ["x.com"]) (λ _, None) OrgMissing (λ _ _, None)
    "20250101-000000" 1735689600.

(** A manager whose configuration names an account, and surroundings in
    which the listing holds three domains, one of them of that account,
    and the staging file is written or not as [staged] says. *)
Definition account_manager : Manager :=
  mkManager "api-for-warp-drive" "DR_CLAUDE_AUTOMATION" "/srv/aixtiv"
    (mkConfig None (Some "Coaching2100") None) default_project_mapping.

Definition listing_world (staged : option string) : World :=
  mkWorld "/srv/aixtiv" (Some (mkConfig None (Some "Coaching2100") None))
    (λ _, Completed "[]")
    (λ _, Returned ["coaching2100.com"; "example.org"; "shop.COACHING2100.net"])
    (λ _, staged) (OrgLoaded None) (λ _ _, None)
    "20250101-000000" 1735689600.

(** Surroundings in which the listing command prints text that does not
    decode. *)
Definition garbled_listing_world : World :=
  mkWorld "/srv/aixtiv" None (λ _, Completed "<html>")
    (λ _, Raised (Exception "Expecting value: line 1 column 1 (char 0)"))
    (λ _, None) (OrgLoaded None) (λ _ _, None)
    "20250101-000000" 1735689600.

(** The phase that a choice on the command line names, if it names one. *)
Definition chosen_phase (choice : PhaseChoice) : option Phase :=
  match choice with
  | OnlyFetch => Some Fetch
  | OnlyCategorize => Some Categorize
  | OnlyAssign => Some Assign
  | OnlyVerify => Some Verify
  | Full => None
  end.

(** A configuration that lists two families, one of them with no
    "project", and surroundings that hold it. *)
Definition sample_config : Config :=
  mkConfig (Some {[ "brand" := Some "brand-site"; "labs" := None ]}) None None.

Definition configured_world : World :=
  mkWorld "/srv/aixtiv" (Some sample_config) (λ _, Completed "")
    (λ _, Returned []) (λ _, None) (OrgLoaded None) (λ _ _, None)
    "20250101-000000" 1735689600.

(** In words: the domain lines that count as assigned, those whose most
    recently seen header names a project of the mapping, the empty name
    apart. *)
Definition assigned_lines (mapping : gmap string string) (lines : list string)
  : list string :=
  omap
    (λ i, line ← lines !! i;
          if is_domain_line line
             && match most_recent_header (take i lines) with
                | Some project =>
                    bool_decide (project ≠ "")
                    && bool_decide (project ∈ (map_img mapping : gset string))
                | None => false
                end
          then Some line else None)
    (seq 0 (length lines)).

(** The summaries that were written as reports, in the order of the
    trail. *)
Definition saved_reports (events : list Event) : list Results :=
  omap (λ e, match e with ReportSaved summary => Some summary | _ => None end) events.

(** Whether the trail holds the command of the notifier. *)
Definition notified (events : list Event) : bool :=
  existsb
    (λ e, match e with
          | AgentAction t d =>
              String.eqb t "run_command"
              && String.eqb d "Updating Firestore with domain autoscale results"
          | _ => false
          end)
    events.

(** [st'] comes from [st] by events that write no report and do not
    notify, with [success] untouched. *)
Definition quiet (st st' : State) : Prop :=
  success (results st') = success (results st)
  ∧ ∃ events,
      trail st' = trail st ++ events
      ∧ saved_reports events = []
      ∧ notified events = false.

(** * Properties *)

(** ** The string operations on examples *)

Example strip_both_ends : strip "  - x.com  " = "- x.com".
Proof. reflexivity. Qed.

Example split_on_delimiter :
  split " - " "[SUCCESS] x.com - ok - again" = ["[SUCCESS] x.com"; "ok"; "again"].
Proof. reflexivity. Qed.

Example split_once_on_colon :
  splitn ":" 1 "Firebase Project: a:b" = ["Firebase Project"; " a:b"].
Proof. reflexivity. Qed.

Example split_on_tag : split "[SUCCESS]" "[SUCCESS] x.com" = [""; " x.com"].
Proof. reflexivity. Qed.

Example split_without_tag : split "[SUCCESS]" "x.com" = ["x.com"].
Proof. reflexivity. Qed.

Example splitlines_mixed_breaks :
  splitlines
    (String "a" (String "010" (String "010" (String "b"
       (String "013" (String "010" (String "c" (String "013" EmptyString))))))))
  = ["a"; ""; "b"; "c"].
Proof. reflexivity. Qed.

Example splitlines_of_join :
  splitlines (join newline sample_assign_lines) = sample_assign_lines.
Proof. reflexivity. Qed.

(** ** Tactics *)

Ltac run_M :=
  unfold returning, try_except, outer, local, modify, gets, raise, pure_outcome,
    log_agent_action, append_error, mbind, M_bind, mret, M_ret.

(** ** Splitting *)

Lemma split_from_cons sep limit skip s :
  ∃ piece pieces, split_from sep limit skip s = piece :: pieces.
Proof.
  revert limit skip. induction s as [|c s IH]; intros limit skip; simpl.
  - eauto.
  - destruct skip as [|k]; [|apply IH].
    destruct (_ && _); [eauto|].
    destruct (IH limit 0%nat) as (p & ps & ->). eauto.
Qed.

Lemma split_from_second a sep limit s :
  limit ≠ Some 0%nat →
  contains (String a sep) s = true →
  ∃ piece, split_from (String a sep) limit 0 s !! 1%nat = Some piece.
Proof.
  intros Hlimit. induction s as [|c s IH]; intros Hin.
  - discriminate.
  - cbn [split_from].
    assert (match limit with Some 0%nat => false | _ => true end = true) as ->.
    { destruct limit as [[|?]|]; congruence. }
    rewrite andb_true_l.
    cbn [contains] in Hin.
    destruct (startswith (String a sep) (String c s)) eqn:Hstart.
    + destruct (split_from_cons (String a sep) (Nat.pred <$> limit)
                  (String.length (String a sep) - 1) s) as (p & ps & ->).
      eauto.
    + rewrite orb_false_l in Hin. destruct (IH Hin) as [piece Hpiece].
      destruct (split_from (String a sep) limit 0 s) as [|p ps]; [discriminate|].
      eauto.
Qed.

Lemma index_first_split sep s : ∃ piece, index (split sep s) 0 = Returned piece.
Proof.
  unfold split. destruct (split_from_cons sep None 0 s) as (p & ps & ->).
  eauto.
Qed.

(** ** The Assign parser *)

Lemma returned_pair_inj {A B} (a a' : A) (b b' : B) :
  Returned (a, b) = Returned (a', b') → a = a' ∧ b = b'.
Proof. by intros [= -> ->]. Qed.

Lemma for_each_app {A B} (f : A → B → outcome A) acc l1 l2 :
  for_each f acc (l1 ++ l2) = acc' ← for_each f acc l1; for_each f acc' l2.
Proof.
  revert acc. induction l1 as [|x l1 IH]; intros acc; simpl; [done|].
  destruct (f acc x); simpl; [apply IH|done].
Qed.

Lemma assign_line_header cur (m : gmap string (list string)) line :
  is_header line = true →
  assign_line (cur, m) line = Returned (Some (header_name line), m).
Proof.
  intros Hh. unfold assign_line. fold (is_header line). rewrite Hh.
  unfold is_header in Hh. apply andb_true_iff in Hh as [_ Hcolon].
  destruct (split_from_second ":" "" (Some 1%nat) line) as [piece Hpiece];
    [done|done|].
  unfold header_name, splitn, index. rewrite Hpiece. done.
Qed.

Lemma assign_line_other cur (m : gmap string (list string)) line :
  is_header line = false →
  assign_line (cur, m) line =
    Returned
      (cur,
       if truthy cur && startswith "-" (strip line) then
         match m !! default "" cur with
         | Some domains => <[default "" cur := domains ++ [domain_of line]]> m
         | None => m
         end
       else m).
Proof.
  intros Hh. unfold assign_line. fold (is_header line). rewrite Hh.
  destruct (truthy cur && startswith "-" (strip line)); [|done].
  fold (domain_of line). by destruct (m !! default "" cur).
Qed.

Lemma assign_line_returns acc line : ∃ acc', assign_line acc line = Returned acc'.
Proof.
  destruct acc as [cur m]. destruct (is_header line) eqn:Hh.
  - rewrite assign_line_header; eauto.
  - rewrite assign_line_other; eauto.
Qed.

Ltac split_decide :=
  repeat match goal with
         | |- context [decide ?P] => destruct (decide P) as [?Hyes|?Hno]
         end.

Ltac by_membership :=
  split_decide; try done; exfalso;
  repeat match goal with
         | H : _ ∈ [] |- _ => by apply elem_of_nil in H
         | H : _ ∈ _ :: _ |- _ => rewrite elem_of_cons in H
         | H : _ ∉ _ :: _ |- _ => rewrite not_elem_of_cons in H
         end;
  intuition congruence.

Lemma foldl_initial_lookup (projects : list string) (acc : gmap string (list string)) p :
  foldl
    (λ assignments project,
       match assignments !! project with
       | None => <[project := []]> assignments
       | Some _ => assignments
       end) acc projects !! p
  = match acc !! p with
    | Some l => Some l
    | None => if decide (p ∈ projects) then Some [] else None
    end.
Proof.
  revert acc. induction projects as [|q projects IH]; intros acc; cbn [foldl].
  - destruct (acc !! p); [done|]. by_membership.
  - rewrite IH. destruct (acc !! q) eqn:Hq.
    + destruct (acc !! p) eqn:Hp; [done|].
      assert (p ≠ q) by congruence.
      by_membership.
    + destruct (decide (p = q)) as [->|Hne].
      * rewrite lookup_insert_eq, Hq. by_membership.
      * rewrite lookup_insert_ne by done. destruct (acc !! p); [done|].
        by_membership.
Qed.

Lemma initial_assignments_lookup (mapping : gmap string string) p :
  initial_assignments mapping !! p
  = if decide (p ∈ (map_img mapping : gset string)) then Some [] else None.
Proof.
  unfold initial_assignments. rewrite foldl_initial_lookup, lookup_empty.
  assert (p ∈ (map_to_list mapping).*2 ↔ p ∈ (map_img mapping : gset string)) as Hiff.
  { rewrite elem_of_map_img. split.
    - intros ([k v] & -> & Hkv)%list_elem_of_fmap.
      apply elem_of_map_to_list in Hkv. eauto.
    - intros [k Hk]. apply list_elem_of_fmap. exists (k, p). split; [done|].
      by apply elem_of_map_to_list. }
  split_decide; tauto.
Qed.

Lemma most_recent_header_snoc lines line :
  most_recent_header (lines ++ [line])
  = if is_header line then Some (header_name line) else most_recent_header lines.
Proof.
  unfold most_recent_header. rewrite List.filter_app. cbn [List.filter].
  destruct (is_header line).
  - rewrite fmap_app. cbn [fmap list_fmap]. apply last_snoc.
  - by rewrite app_nil_r.
Qed.

Lemma domains_under_snoc project lines line :
  domains_under project (lines ++ [line])
  = domains_under project lines
    ++ (if is_domain_line line
           && bool_decide (most_recent_header lines = Some project)
        then [domain_of line] else []).
Proof.
  unfold domains_under.
  rewrite length_app, seq_app, omap_app. cbn [length seq Nat.add]. f_equal.
  - apply list_omap_ext, Forall_Forall2_diag, Forall_forall.
    intros i [_ Hi]%elem_of_seq. cbn [Nat.add] in Hi.
    rewrite lookup_app_l by done. rewrite take_app_le by lia. done.
  - cbn [omap list_omap]. rewrite list_lookup_middle by done.
    cbn [mbind option_bind]. rewrite take_app_length.
    by destruct (_ && _).
Qed.

Lemma truthy_spec cur : truthy cur = true → ∃ q, cur = Some q ∧ q ≠ "".
Proof. destruct cur as [[|c s]|]; try discriminate. eauto. Qed.

Lemma truthy_false cur p : truthy cur = false → p ≠ "" → cur ≠ Some p.
Proof. intros Hf Hp ->. by destruct p. Qed.

Lemma is_domain_line_other line :
  is_header line = false → is_domain_line line = startswith "-" (strip line).
Proof. unfold is_domain_line. by intros ->. Qed.

Lemma assign_lines_spec (mapping : gmap string string) lines :
  ∃ m,
    for_each assign_line (None, initial_assignments mapping) lines
      = Returned (most_recent_header lines, m)
    ∧ ∀ p, m !! p
           = if decide (p ∈ (map_img mapping : gset string))
             then Some (if decide (p = "") then [] else domains_under p lines)
             else None.
Proof.
  induction lines as [|line lines IH] using rev_ind.
  - exists (initial_assignments mapping). split; [done|].
    intros p. rewrite initial_assignments_lookup.
    destruct (decide (p ∈ _)); [|done]. by destruct (decide (p = "")).
  - destruct IH as (m & Hrun & Hm). rewrite for_each_app, Hrun.
    cbn [mbind outcome_bind for_each]. rewrite most_recent_header_snoc.
    destruct (is_header line) eqn:Hh.
    + rewrite assign_line_header by done. exists m. split; [done|].
      intros p. rewrite Hm, domains_under_snoc.
      unfold is_domain_line. rewrite Hh. cbn [negb andb]. by rewrite app_nil_r.
    + rewrite assign_line_other by done. eexists. split; [done|].
      intros p. rewrite domains_under_snoc, is_domain_line_other by done.
      destruct (truthy (most_recent_header lines)) eqn:Ht.
      * destruct (truthy_spec _ Ht) as (q & Hq & Hne). rewrite Hq.
        change (default "" (Some q)) with q. cbn [andb].
        destruct (startswith "-" (strip line)); cbn [andb].
        2:{ rewrite Hm. by rewrite app_nil_r. }
        destruct (decide (p = q)) as [->|Hpq].
        -- rewrite bool_decide_eq_true_2 by done.
           rewrite (Hm q). destruct (decide (q ∈ _)).
           ++ rewrite lookup_insert_eq. by rewrite !decide_False by done.
           ++ rewrite (Hm q). by rewrite decide_False by done.
        -- rewrite bool_decide_eq_false_2 by congruence. rewrite app_nil_r.
           destruct (m !! q); [|apply Hm].
           rewrite lookup_insert_ne by done. apply Hm.
      * cbn [andb]. rewrite Hm.
        destruct (decide (p ∈ _)); [|done]. destruct (decide (p = "")); [done|].
        rewrite bool_decide_eq_false_2 by by apply truthy_false.
        by rewrite andb_false_r, app_nil_r.
Qed.

Lemma for_each_no_header (m : gmap string (list string)) pre :
  Forall (λ line, is_header line = false) pre →
  for_each assign_line (None, m) pre = Returned (None, m).
Proof.
  induction 1 as [|line pre Hh _ IH]; [done|].
  cbn [for_each]. rewrite assign_line_other by done. cbn. exact IH.
Qed.

Lemma for_each_unknown_project name (m : gmap string (list string)) block :
  m !! name = None →
  Forall (λ line, is_header line = false) block →
  for_each assign_line (Some name, m) block = Returned (Some name, m).
Proof.
  intros Hname. induction 1 as [|line block Hh _ IH]; [done|].
  cbn [for_each]. rewrite assign_line_other by done.
  change (default "" (Some name)) with name. rewrite Hname.
  destruct (_ && _); exact IH.
Qed.

Lemma parse_assignments_returns mapping stdout :
  ∃ parsed,
    for_each assign_line (None, initial_assignments mapping) (splitlines stdout)
      = Returned (most_recent_header (splitlines stdout), parsed)
    ∧ parse_assignments mapping stdout = Returned parsed.
Proof.
  destruct (assign_lines_spec mapping (splitlines stdout)) as (m & Hrun & _).
  exists m. split; [done|]. unfold parse_assignments. by rewrite Hrun.
Qed.

Lemma assign_to_projects_completed w self st stdout parsed :
  subprocess_run w assign_command = Completed stdout →
  parse_assignments (project_mapping self) stdout = Returned parsed →
  ∃ st' r,
    assign_to_projects w self st = (st', Returned r)
    ∧ assign_success r = true
    ∧ assignments r = Some parsed
    ∧ assignments_count r = total_length parsed
    ∧ results st' = set_domains_assigned (total_length parsed) (results st).
Proof.
  intros Hrun Hparse. unfold assign_to_projects, run_command. run_M.
  rewrite Hrun. cbn. rewrite Hparse. cbn. eauto 10.
Qed.

(** C1 as stated does not hold: with the built-in mapping (no configuration
    document) the sample lines give a map with no entry for proj-a and with
    every list empty, which is not {proj-a: [x.com, y.com], proj-b: [z.com]}. *)
Lemma assign_sample_under_default_mapping :
  ∃ parsed,
    parse_assignments (project_mapping default_manager)
      (join newline sample_assign_lines) = Returned parsed
    ∧ parsed !! "proj-a" = None
    ∧ total_length parsed = 0%nat
    ∧ parsed ≠ sample_assignments.
Proof.
  exists (initial_assignments default_project_mapping).
  assert (initial_assignments default_project_mapping !! "proj-a" = None) as Hnone
    by (vm_compute; reflexivity).
  assert (sample_assignments !! "proj-a" = Some ["x.com"; "y.com"]) as Hsome
    by (vm_compute; reflexivity).
  split; [vm_compute; reflexivity|]. split; [exact Hnone|].
  split; [vm_compute; reflexivity|].
  intros Heq. rewrite Heq, Hsome in Hnone. discriminate Hnone.
Qed.

(** C1, amended: the Assign parser always returns a map, in which every
    non-empty project identifier of the Phase Family Mapping is bound to the
    domains of the '- <domain>' lines whose most recently seen header names
    it; in particular the sample lines give
    {proj-a: [x.com, y.com], proj-b: [z.com]} when the project identifiers
    of the mapping are exactly proj-a and proj-b. *)
Theorem assign_groups_domains_by_known_header (mapping : gmap string string) stdout :
  ∃ parsed,
    parse_assignments mapping stdout = Returned parsed
    ∧ (∀ p, p ∈ (map_img mapping : gset string) → p ≠ "" →
            parsed !! p = Some (domains_under p (splitlines stdout)))
    ∧ ((map_img mapping : gset string) = {[ "proj-a"; "proj-b" ]} →
       splitlines stdout = sample_assign_lines →
       parsed = sample_assignments).
Proof.
  destruct (assign_lines_spec mapping (splitlines stdout)) as (m & Hrun & Hm).
  exists m. split; [unfold parse_assignments; by rewrite Hrun|]. split.
  - intros p Hp Hne. rewrite Hm. by rewrite decide_True, decide_False.
  - intros Himg Hlines. apply map_eq. intros p. rewrite Hm, Himg, Hlines.
    unfold sample_assignments.
    destruct (decide (p = "proj-a")) as [->|Ha].
    { rewrite decide_True by (rewrite elem_of_union, !elem_of_singleton; tauto). by vm_compute. }
    destruct (decide (p = "proj-b")) as [->|Hb].
    { rewrite decide_True by (rewrite elem_of_union, !elem_of_singleton; tauto). by vm_compute. }
    rewrite decide_False by (rewrite elem_of_union, !elem_of_singleton; tauto).
    rewrite lookup_insert_ne by done. by rewrite lookup_singleton_ne.
Qed.

(** The amended C1 at a mapping with the two projects and the sample lines. *)
Lemma assign_groups_domains_by_known_header_witness :
  parse_assignments sample_mapping (join newline sample_assign_lines)
  = Returned sample_assignments.
Proof.
  destruct (assign_groups_domains_by_known_header sample_mapping
              (join newline sample_assign_lines)) as (parsed & -> & _ & Hsample).
  f_equal. apply Hsample; [vm_compute; reflexivity|reflexivity].
Defined.

(** C7: when the organize command succeeds, the lines of its output that
    come before the first project header change nothing: the Assign phase
    succeeds with the map and the count that the remaining lines alone
    give, and [errors] is left as it was. *)
Theorem assign_drops_domains_before_first_header w self st stdout pre rest :
  subprocess_run w assign_command = Completed stdout →
  splitlines stdout = pre ++ rest →
  Forall (λ line, is_header line = false) pre →
  ∃ current parsed st' r,
    for_each assign_line (None, initial_assignments (project_mapping self)) rest
      = Returned (current, parsed)
    ∧ assign_to_projects w self st = (st', Returned r)
    ∧ assign_success r = true
    ∧ assignments r = Some parsed
    ∧ assignments_count r = total_length parsed
    ∧ domains_assigned (results st') = total_length parsed
    ∧ errors (results st') = errors (results st).
Proof.
  intros Hrun Hlines Hpre.
  destruct (parse_assignments_returns (project_mapping self) stdout)
    as (parsed & Hall & Hparse).
  rewrite Hlines, for_each_app, (for_each_no_header _ pre Hpre) in Hall.
  cbn [mbind outcome_bind] in Hall.
  destruct (assign_to_projects_completed w self st stdout parsed Hrun Hparse)
    as (st' & r & Hphase & Hok & Hmap & Hcount & Hres).
  exists (most_recent_header (pre ++ rest)), parsed, st', r.
  rewrite Hres. done.
Qed.

(** C7 at an output whose first line is a domain with no header before it. *)
Lemma assign_drops_domains_before_first_header_witness :
  ∃ st' r,
    assign_to_projects
      (printing_world
         (join newline ["- early.com"; "Firebase Project: flight-school"; "- x.com"]))
      default_manager start_state = (st', Returned r)
    ∧ assignments r
      = Some (<["flight-school" := ["x.com"]]>
                (initial_assignments (project_mapping default_manager)))
    ∧ domains_assigned (results st') = 1%nat
    ∧ errors (results st') = [].
Proof.
  destruct (assign_drops_domains_before_first_header
              (printing_world
                 (join newline
                    ["- early.com"; "Firebase Project: flight-school"; "- x.com"]))
              default_manager start_state
              (join newline ["- early.com"; "Firebase Project: flight-school"; "- x.com"])
              ["- early.com"] ["Firebase Project: flight-school"; "- x.com"])
    as (current & parsed & st' & r & Hrest & Hphase & _ & Hmap & _ & Hcount & Herr).
  - reflexivity.
  - vm_compute. reflexivity.
  - apply Forall_cons_2; [vm_compute; reflexivity|apply Forall_nil_2].
  - assert (for_each assign_line
              (None, initial_assignments (project_mapping default_manager))
              ["Firebase Project: flight-school"; "- x.com"]
            = Returned
                (Some "flight-school",
                 <["flight-school" := ["x.com"]]>
                   (initial_assignments (project_mapping default_manager))))
      as Hcalc by (vm_compute; reflexivity).
    rewrite Hcalc in Hrest. destruct (returned_pair_inj _ _ _ _ Hrest) as [_ <-].
    exists st', r. split; [exact Hphase|]. split; [exact Hmap|].
    split; [|exact Herr]. rewrite Hcount. vm_compute. reflexivity.
Defined.

(** C9: every project identifier of the Phase Family Mapping starts with an
    empty list; when the organize command succeeds, the key set of the map
    the Assign phase returns is exactly the set of those identifiers, and
    the lines under a header whose name is not one of them change neither
    the map nor, hence, [domains_assigned]. *)
Theorem assign_keys_are_the_mapped_projects w self st stdout :
  subprocess_run w assign_command = Completed stdout →
  (∀ p, p ∈ (map_img (project_mapping self) : gset string) →
        initial_assignments (project_mapping self) !! p = Some [])
  ∧ ∃ parsed st' r,
      assign_to_projects w self st = (st', Returned r)
      ∧ assignments r = Some parsed
      ∧ domains_assigned (results st') = total_length parsed
      ∧ dom parsed = map_img (project_mapping self)
      ∧ ∀ pre header block post,
          splitlines stdout = pre ++ header :: block ++ post →
          is_header header = true →
          header_name header ∉ (map_img (project_mapping self) : gset string) →
          Forall (λ line, is_header line = false) block →
          ∃ current,
            for_each assign_line (None, initial_assignments (project_mapping self))
              (pre ++ header :: post) = Returned (current, parsed).
Proof.
  intros Hrun. split.
  { intros p Hp. rewrite initial_assignments_lookup. by rewrite decide_True. }
  destruct (assign_lines_spec (project_mapping self) (splitlines stdout))
    as (parsed & Hall & Hm).
  assert (parse_assignments (project_mapping self) stdout = Returned parsed) as Hparse.
  { unfold parse_assignments. by rewrite Hall. }
  destruct (assign_to_projects_completed w self st stdout parsed Hrun Hparse)
    as (st' & r & Hphase & _ & Hmap & _ & Hres).
  exists parsed, st', r. split; [done|]. split; [done|].
  split; [by rewrite Hres|]. split.
  { apply set_eq. intros p. rewrite elem_of_dom, Hm.
    destruct (decide (p ∈ _)) as [Hin|Hout].
    - split; [done|]. intros _. eauto.
    - split; [by intros [? ?]|done]. }
  intros pre header block post Hlines Hheader Hout Hblock.
  destruct (assign_lines_spec (project_mapping self) pre) as (m0 & Hpre & Hm0).
  assert (m0 !! header_name header = None) as Hnone.
  { rewrite Hm0. by rewrite decide_False. }
  exists (most_recent_header (splitlines stdout)).
  rewrite Hlines in Hall. rewrite for_each_app, Hpre in Hall |- *.
  cbn [mbind outcome_bind for_each] in Hall |- *.
  rewrite assign_line_header in Hall |- * by done.
  cbn [mbind outcome_bind] in Hall |- *.
  rewrite for_each_app, (for_each_unknown_project _ _ block Hnone Hblock) in Hall.
  cbn [mbind outcome_bind] in Hall. by rewrite Hlines.
Qed.

(** C9 at an output with one domain under an unknown project and one under
    a project of the built-in mapping. *)
Lemma assign_keys_are_the_mapped_projects_witness :
  ∃ st' r,
    assign_to_projects
      (printing_world
         (join newline ["Firebase Project: elsewhere"; "- lost.com";
                        "Firebase Project: flight-school"; "- x.com"]))
      default_manager start_state = (st', Returned r)
    ∧ domains_assigned (results st') = 1%nat.
Proof.
  destruct (assign_keys_are_the_mapped_projects
              (printing_world
                 (join newline ["Firebase Project: elsewhere"; "- lost.com";
                                "Firebase Project: flight-school"; "- x.com"]))
              default_manager start_state
              (join newline ["Firebase Project: elsewhere"; "- lost.com";
                             "Firebase Project: flight-school"; "- x.com"])
              eq_refl)
    as (_ & parsed & st' & r & Hphase & _ & Hcount & _ & Hdrop).
  exists st', r. split; [exact Hphase|]. rewrite Hcount.
  destruct (Hdrop [] "Firebase Project: elsewhere" ["- lost.com"]
              ["Firebase Project: flight-school"; "- x.com"]) as (current & Hshort).
  - vm_compute. reflexivity.
  - vm_compute. reflexivity.
  - assert (bool_decide
              (header_name "Firebase Project: elsewhere"
                 ∈ (map_img (project_mapping default_manager) : gset string)) = false)
      as Hout by (vm_compute; reflexivity).
    by apply bool_decide_eq_false in Hout.
  - apply Forall_cons_2; [vm_compute; reflexivity|apply Forall_nil_2].
  - assert (for_each assign_line
              (None, initial_assignments (project_mapping default_manager))
              ([] ++ "Firebase Project: elsewhere"
                  :: ["Firebase Project: flight-school"; "- x.com"])
            = Returned
                (Some "flight-school",
                 <["flight-school" := ["x.com"]]>
                   (initial_assignments (project_mapping default_manager))))
      as Hcalc by (vm_compute; reflexivity).
    rewrite Hcalc in Hshort. destruct (returned_pair_inj _ _ _ _ Hshort) as [_ <-].
    vm_compute. reflexivity.
Defined.

(** ** The Verify parser *)

Lemma verify_line_well_tagged verified failed line :
  well_tagged line = true →
  verify_line (verified, failed) line
  = Returned
      (if is_success_line line then
         (verified ++ [tagged_domain "[SUCCESS]" line], failed)
       else if is_failed_line line then
         (verified, failed ++ [tagged_domain "[FAILED]" line])
       else (verified, failed)).
Proof.
  unfold well_tagged, verify_line, tagged_domain, before_delimiter.
  fold (is_success_line line) (is_failed_line line).
  destruct (index_first_split " - " line) as [before Hbefore].
  rewrite Hbefore. unfold index in Hbefore.
  destruct (split " - " line !! 0%nat) as [b|]; [|discriminate].
  injection Hbefore as ->. cbn [default from_option id mbind outcome_bind].
  destruct (is_success_line line).
  - intros Htag.
    destruct (split_from_second "[" "SUCCESS]" None before) as [piece Hpiece];
      [done|done|].
    unfold split, index. by rewrite Hpiece.
  - destruct (is_failed_line line); [|done]. intros Htag.
    destruct (split_from_second "[" "FAILED]" None before) as [piece Hpiece];
      [done|done|].
    unfold split, index. by rewrite Hpiece.
Qed.

Lemma verify_lines_well_tagged lines verified failed :
  Forall (λ line, well_tagged line = true) lines →
  for_each verify_line (verified, failed) lines
  = Returned
      (verified ++ (tagged_domain "[SUCCESS]" <$> List.filter is_success_line lines),
       failed ++ (tagged_domain "[FAILED]" <$>
                    List.filter (λ line, negb (is_success_line line) && is_failed_line line)
                      lines)).
Proof.
  intros Hlines. revert verified failed.
  induction Hlines as [|line lines Hline _ IH]; intros verified failed.
  - cbn. by rewrite !app_nil_r.
  - cbn [for_each List.filter]. rewrite verify_line_well_tagged by done.
    cbn [mbind outcome_bind].
    destruct (is_success_line line); cbn [negb andb].
    + rewrite IH. cbn [fmap list_fmap]. by rewrite <- app_assoc.
    + destruct (is_failed_line line); rewrite IH; [|done].
      cbn [fmap list_fmap]. by rewrite <- app_assoc.
Qed.

Lemma verify_domains_completed w st stdout verified failed :
  subprocess_run w verify_command = Completed stdout →
  parse_verification stdout = Returned (verified, failed) →
  ∃ st' r,
    verify_domains w st = (st', Returned r)
    ∧ verify_success r = true
    ∧ verified_domains r = Some verified
    ∧ failed_domains r = Some failed
    ∧ verified_count r = length verified
    ∧ failed_count r = Some (length failed)
    ∧ results st' = set_domains_verified (length verified) (results st).
Proof.
  intros Hrun Hparse. unfold verify_domains, run_command. run_M.
  rewrite Hrun. cbn. rewrite Hparse. cbn. eauto 10.
Qed.

(** C6 as stated does not hold: a line that contains [FAILED] and the
    delimiter, and [SUCCESS] as well, is read as verified only, and
    [failed_domains] stays empty. *)
Lemma verify_line_with_both_tags_is_not_failed :
  let line := "[SUCCESS] [FAILED] y.com - timeout" in
  contains "[FAILED]" line = true
  ∧ contains " - " line = true
  ∧ ∃ st' r,
      verify_domains (printing_world line) start_state = (st', Returned r)
      ∧ verified_domains r = Some ["[FAILED] y.com"]
      ∧ failed_domains r = Some [].
Proof.
  cbv zeta. split; [vm_compute; reflexivity|]. split; [vm_compute; reflexivity|].
  assert (parse_verification "[SUCCESS] [FAILED] y.com - timeout"
          = Returned (["[FAILED] y.com"], [])) as Hparse by (vm_compute; reflexivity).
  destruct (verify_domains_completed
              (printing_world "[SUCCESS] [FAILED] y.com - timeout") start_state
              "[SUCCESS] [FAILED] y.com - timeout" _ _ eq_refl Hparse)
    as (st' & r & Hphase & _ & Hverified & Hfailed & _).
  by exists st', r.
Qed.

(** C6, amended: when the verification command succeeds and the tag by
    which each line is classified stands before the line's first ' - ',
    [verified_domains] holds the domain of every line containing [SUCCESS]
    and ' - ', and [failed_domains] the domain of every line containing
    [FAILED] and ' - ' but not [SUCCESS]; in particular the two sample
    lines give verified_domains = [x.com] and failed_domains = [y.com]. *)
Theorem verify_sorts_well_tagged_lines w st stdout :
  subprocess_run w verify_command = Completed stdout →
  Forall (λ line, well_tagged line = true) (splitlines stdout) →
  ∃ st' r,
    verify_domains w st = (st', Returned r)
    ∧ verified_domains r
      = Some (tagged_domain "[SUCCESS]"
                <$> List.filter is_success_line (splitlines stdout))
    ∧ failed_domains r
      = Some (tagged_domain "[FAILED]"
                <$> List.filter
                      (λ line, negb (is_success_line line) && is_failed_line line)
                      (splitlines stdout))
    ∧ (splitlines stdout = sample_verify_lines →
       verified_domains r = Some ["x.com"] ∧ failed_domains r = Some ["y.com"]).
Proof.
  intros Hrun Hlines.
  pose proof (verify_lines_well_tagged _ [] [] Hlines) as Hparse.
  cbn [app] in Hparse.
  destruct (verify_domains_completed w st stdout _ _ Hrun Hparse)
    as (st' & r & Hphase & _ & Hverified & Hfailed & _).
  exists st', r. split; [done|]. split; [done|]. split; [done|].
  intros Hsample. rewrite Hverified, Hfailed, Hsample. split; reflexivity.
Qed.

(** The amended C6 at the two sample lines. *)
Lemma verify_sorts_well_tagged_lines_witness :
  ∃ st' r,
    verify_domains (printing_world (join newline sample_verify_lines)) start_state
      = (st', Returned r)
    ∧ verified_domains r = Some ["x.com"]
    ∧ failed_domains r = Some ["y.com"].
Proof.
  destruct (verify_sorts_well_tagged_lines
              (printing_world (join newline sample_verify_lines)) start_state
              (join newline sample_verify_lines) eq_refl)
    as (st' & r & Hphase & _ & _ & Hsample).
  - assert (splitlines (join newline sample_verify_lines) = sample_verify_lines)
      as -> by (vm_compute; reflexivity).
    repeat (apply Forall_cons_2; [vm_compute; reflexivity|]). apply Forall_nil_2.
  - exists st', r. split; [exact Hphase|]. apply Hsample. vm_compute. reflexivity.
Defined.

(** ** The phases *)

Lemma fetch_domains_returns w self st :
  ∃ st' r, fetch_domains w self st = (st', Returned r).
Proof.
  unfold fetch_domains, run_command. run_M.
  destruct (subprocess_run w fetch_command); cbn; eauto.
  destruct (json_loads w stdout); cbn; eauto.
  destruct (stage_domains w _); cbn; eauto.
Qed.

Lemma categorize_domains_returns w self st :
  ∃ st' r, categorize_domains w self st = (st', Returned r).
Proof.
  unfold categorize_domains, run_command. run_M.
  destruct (subprocess_run w _); cbn; eauto.
  destruct (organization_file w); cbn; eauto.
Qed.

Lemma assign_to_projects_returns w self st :
  ∃ st' r, assign_to_projects w self st = (st', Returned r).
Proof.
  unfold assign_to_projects, run_command. run_M.
  destruct (subprocess_run w assign_command); cbn; eauto.
  destruct (parse_assignments _ _); cbn; eauto.
Qed.

Lemma verify_domains_returns w st :
  ∃ st' r, verify_domains w st = (st', Returned r).
Proof.
  unfold verify_domains, run_command. run_M.
  destruct (subprocess_run w verify_command); cbn; eauto.
  destruct (parse_verification _) as [[verified failed]|]; cbn; eauto.
Qed.

Lemma gated_phases_returns w self st :
  ∃ st', gated_phases w self st = (st', Returned tt).
Proof.
  unfold gated_phases.
  destruct (fetch_domains_returns w self st) as (st1 & r1 & H1).
  unfold mbind at 1, M_bind at 1. rewrite H1.
  destruct (fetch_success r1); [|by eexists].
  destruct (categorize_domains_returns w self st1) as (st2 & r2 & H2).
  unfold mbind at 1, M_bind at 1. rewrite H2.
  destruct (categorize_success r2); [|by eexists].
  destruct (assign_to_projects_returns w self st2) as (st3 & r3 & H3).
  unfold mbind at 1, M_bind at 1. rewrite H3.
  destruct (assign_success r3); [|by eexists].
  destruct (verify_domains_returns w st3) as (st4 & r4 & H4).
  unfold mbind at 1, M_bind at 1. rewrite H4. by eexists.
Qed.

(** C10: when the command of a phase exits non-zero, the phase returns a
    failed result and has appended exactly two entries to [errors]:
    'Command failed: <stderr>' from [run_command], then
    '<phase> failed: <text of the exception>' from the phase's handler. *)
Theorem failed_command_adds_two_errors w self phase st returncode stderr text :
  subprocess_run w (phase_command self phase) = NonZeroExit returncode stderr text →
  ∃ st',
    after_phase w self phase st = (st', Returned false)
    ∧ errors (results st')
      = errors (results st)
        ++ ["Command failed: " +:+ stderr; phase_label phase +:+ " failed: " +:+ text].
Proof.
  intros Hrun. destruct phase; cbn [phase_command] in Hrun;
    unfold after_phase, fetch_domains, categorize_domains, assign_to_projects,
      verify_domains, run_command; run_M; rewrite Hrun; cbn;
    eexists; (split; [done|]); cbn; by rewrite <- app_assoc.
Qed.

(** C10 at the Fetch phase of a run whose listing command is denied. *)
Lemma failed_command_adds_two_errors_witness :
  ∃ st',
    after_phase (sample_world denied (Completed "") (λ _, None)) default_manager
      Fetch start_state = (st', Returned false)
    ∧ errors (results st')
      = ["Command failed: permission denied";
         "Domain fetch failed: Command returned non-zero exit status 1."].
Proof.
  apply (failed_command_adds_two_errors
           (sample_world denied (Completed "") (λ _, None)) default_manager
           Fetch start_state 1 "permission denied"
           "Command returned non-zero exit status 1.").
  vm_compute. reflexivity.
Defined.

(** ** The pipeline controller *)

Lemma save_attempts_action events action_type description :
  save_attempts (events ++ [AgentAction action_type description]) = save_attempts events.
Proof.
  induction events as [|[]]; cbn [app save_attempts]; by rewrite ?IHevents.
Qed.

Lemma save_attempts_saved events summary :
  save_attempts (events ++ [ReportSaved summary]) = S (save_attempts events).
Proof.
  induction events as [|[]]; cbn [app save_attempts]; by rewrite ?IHevents.
Qed.

Lemma save_attempts_not_saved events summary :
  save_attempts (events ++ [ReportNotSaved summary]) = S (save_attempts events).
Proof.
  induction events as [|[]]; cbn [app save_attempts]; by rewrite ?IHevents.
Qed.

Lemma notify_completion_outcome w self st :
  ∃ st',
    _notify_completion w self st = (st', Returned tt)
    ∧ success (results st') = success (results st)
    ∧ domains_verified (results st') = domains_verified (results st)
    ∧ errors (results st')
      = errors (results st)
        ++ notifier_errors (subprocess_run w (notify_command w self (results st)))
    ∧ save_attempts (trail st') = save_attempts (trail st).
Proof.
  unfold _notify_completion, run_command. run_M. cbn.
  destruct (subprocess_run w _); cbn; eexists; (split; [done|]); cbn;
    rewrite ?save_attempts_action, ?app_nil_r, <- ?app_assoc; done.
Qed.

Lemma run_full_pipeline_saved w self st st1 :
  gated_phases w self (emit pipeline_start st) = (st1, Returned tt) →
  write_report w (save_attempts (trail st1)) (results st1) = None →
  ∃ st3,
    _notify_completion w self (before_notification st1) = (st3, Returned tt)
    ∧ run_full_pipeline w self st
      = (emit (AgentAction "autoscale_pipeline_complete"
                 ("Domain autoscale pipeline completed successfully: "
                    +:+ pretty (domains_verified (results st3))
                    +:+ " domains verified")) st3,
         Returned (results st3)).
Proof.
  intros Hphases Hsave.
  destruct (notify_completion_outcome w self (before_notification st1))
    as (st3 & Hnotify & _).
  exists st3. split; [done|].
  unfold run_full_pipeline, _save_results, log_agent_action, append_error. run_M.
  cbv beta iota. fold pipeline_start. rewrite Hphases. cbv beta iota.
  rewrite Hsave. cbv beta iota.
  fold (before_notification st1). rewrite Hnotify. done.
Qed.

Lemma run_full_pipeline_not_saved w self st st1 text :
  gated_phases w self (emit pipeline_start st) = (st1, Returned tt) →
  write_report w (save_attempts (trail st1)) (results st1) = Some text →
  run_full_pipeline w self st
  = match write_report w (save_attempts (trail (before_second_save st1 text)))
            (results (before_second_save st1 text)) with
    | None =>
        (emit (ReportSaved (results (before_second_save st1 text)))
           (before_second_save st1 text),
         Returned (results (before_second_save st1 text)))
    | Some text' =>
        (emit (ReportNotSaved (results (before_second_save st1 text)))
           (before_second_save st1 text),
         Raised (Exception text'))
    end.
Proof.
  intros Hphases Hsave.
  unfold run_full_pipeline, _save_results, log_agent_action, append_error. run_M.
  cbv beta iota. fold pipeline_start. rewrite Hphases. cbv beta iota.
  rewrite Hsave. cbv beta iota. cbn [str_exn].
  fold (before_second_save st1 text).
  destruct (write_report w (save_attempts (trail (before_second_save st1 text))) _); reflexivity.
Qed.

Lemma not_saved_outcome w self st st1 text :
  gated_phases w self (emit pipeline_start st) = (st1, Returned tt) →
  write_report w (save_attempts (trail st1)) (results st1) = Some text →
  ∃ event o,
    run_full_pipeline w self st = (emit event (before_second_save st1 text), o)
    ∧ (event = ReportSaved (results (before_second_save st1 text))
       ∨ event = ReportNotSaved (results (before_second_save st1 text)))
    ∧ ∀ r, o = Returned r → r = results (before_second_save st1 text).
Proof.
  intros Hphases Hsave.
  rewrite (run_full_pipeline_not_saved w self st st1 text Hphases Hsave).
  destruct (write_report w (save_attempts (trail (before_second_save st1 text))) _).
  - eexists _, _. split; [done|]. split; [by right|]. by intros r [=].
  - eexists _, _. split; [done|]. split; [by left|]. by intros r [= <-].
Qed.

Lemma errors_before_second_save st1 text :
  errors (results (before_second_save st1 text))
  = errors (results st1) ++ ["Pipeline execution failed: " +:+ text].
Proof. reflexivity. Qed.

Lemma success_before_second_save st1 text :
  success (results (before_second_save st1 text)) = false.
Proof. reflexivity. Qed.

Lemma snoc_not_nil {A} (l : list A) x : l ++ [x] ≠ [].
Proof. by destruct l. Qed.

(** C2 as stated does not hold: in a run where every phase and the report
    go well and only the notifier's command fails, [errors] has two entries
    and [success] is true. *)
Lemma notifier_failure_leaves_errors_on_a_successful_run :
  let summary :=
    results (main (sample_world (Completed "[]") denied (λ _, None))
               "api-for-warp-drive" "DR_CLAUDE_AUTOMATION" Full).1 in
  success summary = true
  ∧ errors summary
    = ["Command failed: permission denied";
       "Failed to update Firestore: Command returned non-zero exit status 1."]
  ∧ ¬ (errors summary ≠ [] ↔ success summary = false).
Proof.
  intros summary.
  assert (success summary = true) as Hsuccess by (vm_compute; reflexivity).
  assert (errors summary
          = ["Command failed: permission denied";
             "Failed to update Firestore: Command returned non-zero exit status 1."])
    as Herrors by (vm_compute; reflexivity).
  split; [exact Hsuccess|]. split; [exact Herrors|].
  intros [Hfails _]. rewrite Hsuccess, Herrors in Hfails.
  by discriminate Hfails.
Qed.

(** C2, amended: in the summary a full-pipeline run ends with, [success]
    false implies that [errors] is not empty; and if [errors] is not empty
    then [success] is false, unless the notifier's command failed on a
    summary that had no errors and [success] already computed as true. *)
Theorem success_false_means_errors w self st :
  let summary := results (run_full_pipeline w self st).1 in
  (success summary = false → errors summary ≠ [])
  ∧ (errors summary ≠ [] →
     success summary = false
     ∨ ∃ r, errors r = [] ∧ success r = true
            ∧ ∀ stdout, subprocess_run w (notify_command w self r) ≠ Completed stdout).
Proof.
  cbv zeta.
  destruct (gated_phases_returns w self (emit pipeline_start st)) as [st1 Hphases].
  destruct (write_report w (save_attempts (trail st1)) (results st1)) as [text|] eqn:Hsave.
  - destruct (not_saved_outcome w self st st1 text Hphases Hsave)
      as (event & o & -> & _ & _).
    cbn [fst emit results].
    rewrite errors_before_second_save, success_before_second_save.
    split; [intros _; apply snoc_not_nil|by left].
  - destruct (run_full_pipeline_saved w self st st1 Hphases Hsave)
      as (st3 & Hnotify & ->).
    destruct (notify_completion_outcome w self (before_notification st1))
      as (st3' & Hnotify' & Hsuccess & _ & Herrors & _).
    rewrite Hnotify in Hnotify'. injection Hnotify' as <-.
    cbn [fst emit results]. rewrite Hsuccess, Herrors.
    assert (errors (results (before_notification st1)) = errors (results st1))
      as -> by reflexivity.
    assert (success (results (before_notification st1))
            = bool_decide (length (errors (results st1)) = 0%nat)) as -> by reflexivity.
    destruct (errors (results st1)) as [|e es] eqn:He.
    + split; [done|]. intros Hne. right.
      exists (results (before_notification st1)).
      assert (errors (results (before_notification st1)) = errors (results st1))
        as -> by reflexivity.
      assert (success (results (before_notification st1))
              = bool_decide (length (errors (results st1)) = 0%nat)) as -> by reflexivity.
      rewrite He. split; [done|]. split; [done|]. intros stdout Hrun.
      rewrite Hrun in Hne. by apply Hne.
    + split; [done|]. by left.
Qed.

(** The amended C2 at a run whose listing command fails. *)
Lemma success_false_means_errors_witness :
  let summary :=
    results (run_full_pipeline (sample_world denied (Completed "") (λ _, None))
               default_manager start_state).1 in
  success summary = false ∧ errors summary ≠ [].
Proof.
  cbv zeta. split; [vm_compute; reflexivity|].
  apply (success_false_means_errors (sample_world denied (Completed "") (λ _, None))
           default_manager start_state).
  vm_compute. reflexivity.
Defined.

(** C4 as stated does not hold: when the first attempt to write the report
    fails, [_save_results] runs a second time in the same run. *)
Lemma report_writer_runs_again_after_failure :
  let final :=
    (main (sample_world (Completed "[]") (Completed "")
             (λ attempt, if attempt is 0%nat then Some "disk full" else None))
       "api-for-warp-drive" "DR_CLAUDE_AUTOMATION" Full).1 in
  save_attempts (trail final) = 2%nat
  ∧ errors (results final) = ["Pipeline execution failed: disk full"]
  ∧ last (trail final) = Some (ReportSaved (results final)).
Proof. cbv zeta. repeat split; vm_compute; reflexivity. Qed.

Lemma has_action_snoc action_type events e :
  has_action action_type (events ++ [e])
  = has_action action_type events || has_action action_type [e].
Proof. unfold has_action. apply existsb_app. Qed.

(** C4, amended: the phases always hand over to the report writer, and if
    its first attempt fails with [text], the run ends with
    'Pipeline execution failed: <text>' appended to [errors], [success]
    false, no further command run, and the report writer invoked exactly
    once more (two attempts in all). *)
Theorem failed_report_is_recorded_and_retried_once w self st :
  ∃ st1,
    gated_phases w self (emit pipeline_start st) = (st1, Returned tt)
    ∧ ∀ text,
        write_report w (save_attempts (trail st1)) (results st1) = Some text →
        let final := (run_full_pipeline w self st).1 in
        errors (results final)
          = errors (results st1) ++ ["Pipeline execution failed: " +:+ text]
        ∧ success (results final) = false
        ∧ save_attempts (trail final) = (save_attempts (trail st1) + 2)%nat
        ∧ has_action "run_command" (trail final) = has_action "run_command" (trail st1).
Proof.
  destruct (gated_phases_returns w self (emit pipeline_start st)) as [st1 Hphases].
  exists st1. split; [done|]. intros text Hsave. cbv zeta.
  destruct (not_saved_outcome w self st st1 text Hphases Hsave)
    as (event & o & -> & Hevent & _).
  cbn [fst emit results trail].
  split; [apply errors_before_second_save|]. split; [done|].
  assert (save_attempts (trail (before_second_save st1 text))
          = S (save_attempts (trail st1))) as Hcount.
  { cbn [before_second_save on_results emit trail].
    by rewrite save_attempts_action, save_attempts_not_saved. }
  assert (has_action "run_command" (trail (before_second_save st1 text))
          = has_action "run_command" (trail st1)) as Hactions.
  { cbn [before_second_save on_results emit trail].
    rewrite !has_action_snoc. cbn. by rewrite !orb_false_r. }
  rewrite has_action_snoc, Hactions.
  destruct Hevent as [-> | ->].
  - rewrite save_attempts_saved, Hcount. split; [lia|]. cbn. by rewrite orb_false_r.
  - rewrite save_attempts_not_saved, Hcount. split; [lia|]. cbn. by rewrite orb_false_r.
Qed.

(** The amended C4 at a run whose first report attempt meets a full disk. *)
Lemma failed_report_is_recorded_and_retried_once_witness :
  let w := sample_world denied (Completed "")
             (λ attempt, if attempt is 0%nat then Some "disk full" else None) in
  let final := (run_full_pipeline w default_manager start_state).1 in
  errors (results final)
  = ["Command failed: permission denied";
     "Domain fetch failed: Command returned non-zero exit status 1.";
     "Pipeline execution failed: disk full"]
  ∧ success (results final) = false
  ∧ save_attempts (trail final) = 2%nat.
Proof.
  cbv zeta.
  destruct (failed_report_is_recorded_and_retried_once
              (sample_world denied (Completed "")
                 (λ attempt, if attempt is 0%nat then Some "disk full" else None))
              default_manager start_state) as (st1 & Hphases & Hretry).
  assert (st1
          = (gated_phases
               (sample_world denied (Completed "")
                  (λ attempt, if attempt is 0%nat then Some "disk full" else None))
               default_manager (emit pipeline_start start_state)).1) as ->
    by (by rewrite Hphases).
  destruct (Hretry "disk full") as (Herrors & Hsuccess & Hcount & _).
  { vm_compute. reflexivity. }
  split; [|split; [exact Hsuccess|]].
  - rewrite Herrors. vm_compute. reflexivity.
  - rewrite Hcount. vm_compute. reflexivity.
Defined.

Lemma pipeline_success w self st st1 :
  gated_phases w self (emit pipeline_start st) = (st1, Returned tt) →
  let verdict :=
    match write_report w (save_attempts (trail st1)) (results st1) with
    | None => bool_decide (length (errors (results st1)) = 0%nat)
    | Some _ => false
    end in
  success (results (run_full_pipeline w self st).1) = verdict
  ∧ ∀ r, (run_full_pipeline w self st).2 = Returned r → success r = verdict.
Proof.
  intros Hphases. cbv zeta.
  destruct (write_report w (save_attempts (trail st1)) (results st1)) as [text|] eqn:Hsave.
  - destruct (not_saved_outcome w self st st1 text Hphases Hsave)
      as (event & o & -> & _ & Hreturned).
    cbn [fst snd emit results]. split; [done|].
    intros r Hr. by rewrite (Hreturned r Hr).
  - destruct (run_full_pipeline_saved w self st st1 Hphases Hsave)
      as (st3 & Hnotify & ->).
    destruct (notify_completion_outcome w self (before_notification st1))
      as (st3' & Hnotify' & Hsuccess & _).
    rewrite Hnotify in Hnotify'. injection Hnotify' as <-.
    cbn [fst snd emit results]. rewrite Hsuccess. split; [done|].
    intros r [= <-]. by rewrite Hsuccess.
Qed.

Lemma main_full w project agent :
  main w project agent Full
  = match run_full_pipeline w (__init__ w project agent).1
            (__init__ w project agent).2 with
    | (final, Returned r) => (final, Returned (if success r then 0%Z else 1%Z))
    | (final, Raised e) => (final, Raised e)
    end.
Proof.
  unfold main. destruct (__init__ w project agent) as [self st0]. cbn [fst snd].
  unfold mbind, M_bind, mret, M_ret.
  by destruct (run_full_pipeline w self st0) as [final [r|e]].
Qed.

Lemma exit_status_full w project agent :
  exit_status w project agent Full
  = if success (results (main w project agent Full).1) then 0%Z else 1%Z.
Proof.
  unfold exit_status. rewrite main_full.
  destruct (gated_phases_returns w (__init__ w project agent).1
              (emit pipeline_start (__init__ w project agent).2)) as [st1 Hphases].
  destruct (pipeline_success w _ _ st1 Hphases) as [Hfinal Hreturned].
  destruct (run_full_pipeline w (__init__ w project agent).1
              (__init__ w project agent).2) as [final [r|e]] eqn:Hrun.
  - cbn [fst snd] in *. by rewrite Hfinal, (Hreturned r eq_refl).
  - cbn [fst snd] in *. rewrite Hfinal.
    destruct (write_report w (save_attempts (trail st1)) (results st1)) as [text|] eqn:Hsave;
      [done|].
    destruct (run_full_pipeline_saved w _ _ st1 Hphases Hsave) as (st3 & _ & Heq).
    rewrite Heq in Hrun. discriminate Hrun.
Qed.

(** C5: whatever way the notifier's command ends, [_notify_completion]
    returns, appends to [errors] exactly the entries of that ending (none
    when the command succeeds, one or two when it fails) and leaves
    [success] as it was; so the [success] of the final summary and the exit
    status of the process are those of the run in which the notifier's
    command succeeds. *)
Theorem notifier_failure_keeps_success w self st notify :
  (∃ st',
     _notify_completion (with_notifier notify w) self st = (st', Returned tt)
     ∧ errors (results st') = errors (results st) ++ notifier_errors notify
     ∧ success (results st') = success (results st))
  ∧ (∀ stdout,
       success (results (run_full_pipeline (with_notifier notify w) self st).1)
       = success (results (run_full_pipeline
                             (with_notifier (Completed stdout) w) self st).1))
  ∧ (∀ stdout project agent,
       exit_status (with_notifier notify w) project agent Full
       = exit_status (with_notifier (Completed stdout) w) project agent Full).
Proof.
  assert (∀ self' st' n n',
            success (results (run_full_pipeline (with_notifier n w) self' st').1)
            = success (results (run_full_pipeline (with_notifier n' w) self' st').1))
    as Hsame.
  { intros self' st' n n'.
    destruct (gated_phases_returns w self' (emit pipeline_start st')) as [st1 Hphases].
    destruct (pipeline_success (with_notifier n w) self' st' st1 Hphases) as [-> _].
    destruct (pipeline_success (with_notifier n' w) self' st' st1 Hphases) as [-> _].
    done. }
  split; [|split].
  - destruct (notify_completion_outcome (with_notifier notify w) self st)
      as (st' & Hnotify & Hsuccess & _ & Herrors & _).
    exists st'. done.
  - intros stdout. apply Hsame.
  - intros stdout project agent. rewrite !exit_status_full, !main_full.
    change (__init__ (with_notifier notify w) project agent)
      with (__init__ w project agent).
    change (__init__ (with_notifier (Completed stdout) w) project agent)
      with (__init__ w project agent).
    pose proof (Hsame (__init__ w project agent).1 (__init__ w project agent).2
                  notify (Completed stdout)) as Heq.
    destruct (run_full_pipeline (with_notifier notify w) _ _) as [f1 [r1|e1]];
      destruct (run_full_pipeline (with_notifier (Completed stdout) w) _ _)
        as [f2 [r2|e2]]; cbn [fst snd] in *; by rewrite Heq.
Qed.
Lemma invoked_emit_other phase events action_type description :
  (action_type =? start_action phase)%string = false →
  invoked phase (events ++ [AgentAction action_type description]) = invoked phase events.
Proof.
  intros Hne. unfold invoked, has_action. rewrite existsb_app. cbn.
  by rewrite Hne, !orb_false_r.
Qed.

Lemma invoked_saved phase events summary :
  invoked phase (events ++ [ReportSaved summary]) = invoked phase events.
Proof.
  unfold invoked, has_action. rewrite existsb_app. cbn. by rewrite !orb_false_r.
Qed.

Lemma invoked_not_saved phase events summary :
  invoked phase (events ++ [ReportNotSaved summary]) = invoked phase events.
Proof.
  unfold invoked, has_action. rewrite existsb_app. cbn. by rewrite !orb_false_r.
Qed.


Lemma fetch_leaves_later_phases w self st st1 fr :
  fetch_domains w self st = (st1, Returned fr) →
  later_counts (results st1) = later_counts (results st)
  ∧ ∀ phase, phase ≠ Fetch → invoked phase (trail st1) = invoked phase (trail st).
Proof.
  unfold fetch_domains, run_command. run_M.
  destruct (subprocess_run w fetch_command); cbn;
    [destruct (json_loads w stdout); cbn; [destruct (stage_domains w _); cbn|]| |];
    intros [= <- <-]; (split; [done|]); intros phase Hne; cbn [trail emit on_results];
    destruct phase; try done;
    by repeat (rewrite invoked_emit_other by done).
Qed.

Lemma notify_leaves_phases w self st st' :
  _notify_completion w self st = (st', Returned tt) →
  later_counts (results st') = later_counts (results st)
  ∧ ∀ phase, invoked phase (trail st') = invoked phase (trail st).
Proof.
  unfold _notify_completion, run_command. run_M. cbn.
  destruct (subprocess_run w _); cbn; intros [= <-]; (split; [done|]);
    intros phase; cbn [trail emit on_results]; destruct phase;
    by repeat (rewrite invoked_emit_other by done).
Qed.

Lemma pipeline_tail_leaves_phases w self st st1 :
  gated_phases w self (emit pipeline_start st) = (st1, Returned tt) →
  later_counts (results (run_full_pipeline w self st).1) = later_counts (results st1)
  ∧ ∀ phase,
      invoked phase (trail (run_full_pipeline w self st).1) = invoked phase (trail st1).
Proof.
  intros Hphases.
  destruct (write_report w (save_attempts (trail st1)) (results st1)) as [text|] eqn:Hsave.
  - destruct (not_saved_outcome w self st st1 text Hphases Hsave)
      as (event & o & -> & Hevent & _).
    cbn [fst emit results trail before_second_save on_results].
    split; [done|]. intros phase.
    destruct Hevent as [-> | ->]; rewrite ?invoked_saved, ?invoked_not_saved;
      (rewrite invoked_emit_other by by destruct phase);
      by rewrite invoked_not_saved.
  - destruct (run_full_pipeline_saved w self st st1 Hphases Hsave)
      as (st3 & Hnotify & ->).
    destruct (notify_leaves_phases _ _ _ _ Hnotify) as [Hcounts Hinvoked].
    cbn [fst emit results trail]. split.
    + by rewrite Hcounts.
    + intros phase. rewrite invoked_emit_other by by destruct phase.
      rewrite Hinvoked. cbn [before_notification on_results emit trail].
      by rewrite invoked_saved.
Qed.

Lemma main_full_state w project agent :
  (main w project agent Full).1
  = (run_full_pipeline w (__init__ w project agent).1 (__init__ w project agent).2).1.
Proof.
  rewrite main_full.
  by destruct (run_full_pipeline w _ _) as [final [r|e]].
Qed.

(** C3: in a full-pipeline run in which the result of the Fetch phase has
    [success] false, the trail of the run holds no start of the Categorize,
    Assign or Verify phase, and the four counts those phases write are 0 in
    the final summary. *)
Theorem failed_fetch_gates_later_phases w project agent st1 fr :
  fetch_domains w (__init__ w project agent).1
    (emit pipeline_start (__init__ w project agent).2) = (st1, Returned fr) →
  fetch_success fr = false →
  let final := (main w project agent Full).1 in
  invoked Categorize (trail final) = false
  ∧ invoked Assign (trail final) = false
  ∧ invoked Verify (trail final) = false
  ∧ domains_categorized (results final) = 0%nat
  ∧ families_identified (results final) = 0%nat
  ∧ domains_assigned (results final) = 0%nat
  ∧ domains_verified (results final) = 0%nat.
Proof.
  intros Hfetch Hfailed. cbv zeta. rewrite main_full_state.
  set (self := (__init__ w project agent).1) in *.
  set (st0 := (__init__ w project agent).2) in *.
  assert (gated_phases w self (emit pipeline_start st0) = (st1, Returned tt)) as Hphases.
  { unfold gated_phases. unfold mbind at 1, M_bind at 1.
    by rewrite Hfetch, Hfailed. }
  destruct (pipeline_tail_leaves_phases w self st0 st1 Hphases) as [Hcounts Hinvoked].
  destruct (fetch_leaves_later_phases _ _ _ _ _ Hfetch) as [Hcounts' Hinvoked'].
  rewrite !Hinvoked, !Hinvoked' by done.
  rewrite Hcounts' in Hcounts. injection Hcounts as -> -> -> ->.
  by repeat split.
Qed.

(** C3 at a run whose listing command is denied. *)
Lemma failed_fetch_gates_later_phases_witness :
  let final :=
    (main (sample_world denied (Completed "") (λ _, None))
       "api-for-warp-drive" "DR_CLAUDE_AUTOMATION" Full).1 in
  invoked Categorize (trail final) = false
  ∧ invoked Assign (trail final) = false
  ∧ invoked Verify (trail final) = false
  ∧ domains_categorized (results final) = 0%nat
  ∧ families_identified (results final) = 0%nat
  ∧ domains_assigned (results final) = 0%nat
  ∧ domains_verified (results final) = 0%nat.
Proof.
  destruct (fetch_domains_returns
              (sample_world denied (Completed "") (λ _, None))
              (__init__ (sample_world denied (Completed "") (λ _, None))
                 "api-for-warp-drive" "DR_CLAUDE_AUTOMATION").1
              (emit pipeline_start
                 (__init__ (sample_world denied (Completed "") (λ _, None))
                    "api-for-warp-drive" "DR_CLAUDE_AUTOMATION").2))
    as (st1 & fr & Hfetch).
  apply (failed_fetch_gates_later_phases
           (sample_world denied (Completed "") (λ _, None))
           "api-for-warp-drive" "DR_CLAUDE_AUTOMATION" st1 fr Hfetch).
  assert (match (fetch_domains
                   (sample_world denied (Completed "") (λ _, None))
                   (__init__ (sample_world denied (Completed "") (λ _, None))
                      "api-for-warp-drive" "DR_CLAUDE_AUTOMATION").1
                   (emit pipeline_start
                      (__init__ (sample_world denied (Completed "") (λ _, None))
                         "api-for-warp-drive" "DR_CLAUDE_AUTOMATION").2)).2 with
          | Returned result => fetch_success result
          | Raised _ => true
          end = false) as Hfailed by (vm_compute; reflexivity).
  rewrite Hfetch in Hfailed. exact Hfailed.
Defined.


(** ** The Phase Family Mapping *)

(** C8: when no [domainFamilies] entry is loaded (the configuration
    document is absent, or has no such entry), the mapping of the new
    manager is the built-in table, whose ten keys are character, command,
    wing, squadron, brand, aixtiv, learning, flight, commerce and
    governance. *)
Theorem absent_config_gives_default_mapping w project agent :
  (∀ c, config_file w = Some c → domainFamilies c = None) →
  project_mapping (__init__ w project agent).1 = default_project_mapping
  ∧ dom default_project_mapping
    = {[ "character"; "command"; "wing"; "squadron"; "brand"; "aixtiv";
         "learning"; "flight"; "commerce"; "governance" ]}
  ∧ size default_project_mapping = 10%nat.
Proof.
  intros Hconfig. split; [|split].
  - unfold __init__. cbn [fst project_mapping].
    destruct (config_file w) as [c|]; [|reflexivity].
    cbn [default from_option id]. by rewrite (Hconfig c eq_refl).
  - apply (bool_decide_unpack _). vm_compute. exact I.
  - vm_compute. reflexivity.
Qed.

(** C8 at a run with no configuration document. *)
Lemma absent_config_gives_default_mapping_witness :
  project_mapping default_manager = default_project_mapping
  ∧ size default_project_mapping = 10%nat.
Proof.
  destruct (absent_config_gives_default_mapping (printing_world "")
              "api-for-warp-drive" "DR_CLAUDE_AUTOMATION") as (Hmapping & _ & Hsize).
  - intros c Hc. discriminate Hc.
  - split; [exact Hmapping|exact Hsize].
Defined.

(** * Further properties *)

Ltac phase_cases :=
  cbn [fst snd results trail errors success emit on_results errors_append
       set_domains_fetched set_domains_categorized set_domains_assigned
       set_domains_verified set_families_identified set_success];
  rewrite <- ?app_assoc; cbn [app].

Lemma phase_outcome w self phase st :
  ∃ st' ok es events,
    after_phase w self phase st = (st', Returned ok)
    ∧ errors (results st') = errors (results st) ++ es
    ∧ trail st' = trail st ++ events
    ∧ success (results st') = success (results st)
    ∧ (if ok then es = [] else failure_entries phase es).
Proof.
  unfold failure_entries.
  destruct phase; cbn [after_phase phase_label];
    unfold fetch_domains, categorize_domains, assign_to_projects, verify_domains,
      run_command; run_M.
  - destruct (subprocess_run w fetch_command); cbn;
      [destruct (json_loads w stdout); cbn; [destruct (stage_domains w _); cbn|]| |];
      eexists _, _, _, _; (split; [reflexivity|]); phase_cases;
      (split; [try reflexivity; by rewrite app_nil_r|]);
      (split; [reflexivity|]); (split; [reflexivity|]); eauto.
  - destruct (subprocess_run w _); cbn;
      [destruct (organization_file w); cbn| |];
      eexists _, _, _, _; (split; [reflexivity|]); phase_cases;
      (split; [try reflexivity; by rewrite app_nil_r|]);
      (split; [reflexivity|]); (split; [reflexivity|]); eauto.
  - destruct (subprocess_run w assign_command); cbn;
      [destruct (parse_assignments _ _); cbn| |];
      eexists _, _, _, _; (split; [reflexivity|]); phase_cases;
      (split; [try reflexivity; by rewrite app_nil_r|]);
      (split; [reflexivity|]); (split; [reflexivity|]); eauto.
  - destruct (subprocess_run w verify_command); cbn;
      [destruct (parse_verification _) as [[verified failed]|]; cbn| |];
      eexists _, _, _, _; (split; [reflexivity|]); phase_cases;
      (split; [try reflexivity; by rewrite app_nil_r|]);
      (split; [reflexivity|]); (split; [reflexivity|]); eauto.
Qed.

Lemma extends_refl st : extends st st.
Proof. by split. Qed.

Lemma extends_trans st1 st2 st3 : extends st1 st2 → extends st2 st3 → extends st1 st3.
Proof. intros [He Ht] [He' Ht']. split; by etrans. Qed.

Lemma extends_emit e st : extends st (emit e st).
Proof. split; [done|]. by apply prefix_app_r. Qed.

Lemma extends_error msg st : extends st (on_results (errors_append msg) st).
Proof. split; [|done]. by apply prefix_app_r. Qed.

Lemma extends_set_success b st : extends st (on_results (set_success b) st).
Proof. by split. Qed.

Lemma phase_extends w self phase st : extends st (after_phase w self phase st).1.
Proof.
  destruct (phase_outcome w self phase st)
    as (st' & ok & es & events & -> & Herrors & Htrail & _).
  split; cbn [fst]; [rewrite Herrors|rewrite Htrail]; by apply prefix_app_r.
Qed.

Lemma after_fetch w self st :
  after_phase w self Fetch st
  = match fetch_domains w self st with
    | (st', Returned r) => (st', Returned (fetch_success r))
    | (st', Raised e) => (st', Raised e)
    end.
Proof.
  cbn [after_phase]. unfold mbind, M_bind, mret, M_ret.
  by destruct (fetch_domains w self st) as [st' [r|e]].
Qed.

Lemma after_categorize w self st :
  after_phase w self Categorize st
  = match categorize_domains w self st with
    | (st', Returned r) => (st', Returned (categorize_success r))
    | (st', Raised e) => (st', Raised e)
    end.
Proof.
  cbn [after_phase]. unfold mbind, M_bind, mret, M_ret.
  by destruct (categorize_domains w self st) as [st' [r|e]].
Qed.

Lemma after_assign w self st :
  after_phase w self Assign st
  = match assign_to_projects w self st with
    | (st', Returned r) => (st', Returned (assign_success r))
    | (st', Raised e) => (st', Raised e)
    end.
Proof.
  cbn [after_phase]. unfold mbind, M_bind, mret, M_ret.
  by destruct (assign_to_projects w self st) as [st' [r|e]].
Qed.

Lemma after_verify w self st :
  after_phase w self Verify st
  = match verify_domains w st with
    | (st', Returned r) => (st', Returned (verify_success r))
    | (st', Raised e) => (st', Raised e)
    end.
Proof.
  cbn [after_phase]. unfold mbind, M_bind, mret, M_ret.
  by destruct (verify_domains w st) as [st' [r|e]].
Qed.

(** The gated sequence, told by the outcomes of the phases it runs. *)
Lemma gated_phases_unfold w self st :
  gated_phases w self st
  = match after_phase w self Fetch st with
    | (st1, Returned true) =>
        match after_phase w self Categorize st1 with
        | (st2, Returned true) =>
            match after_phase w self Assign st2 with
            | (st3, Returned true) =>
                match after_phase w self Verify st3 with
                | (st4, Returned _) => (st4, Returned tt)
                | (st4, Raised e) => (st4, Raised e)
                end
            | (st3, Returned false) => (st3, Returned tt)
            | (st3, Raised e) => (st3, Raised e)
            end
        | (st2, Returned false) => (st2, Returned tt)
        | (st2, Raised e) => (st2, Raised e)
        end
    | (st1, Returned false) => (st1, Returned tt)
    | (st1, Raised e) => (st1, Raised e)
    end.
Proof.
  rewrite after_fetch. unfold gated_phases. unfold mbind at 1, M_bind at 1.
  destruct (fetch_domains w self st) as [st1 [r1|e1]]; [|done].
  destruct (fetch_success r1); [|done].
  rewrite after_categorize. unfold mbind at 1, M_bind at 1.
  destruct (categorize_domains w self st1) as [st2 [r2|e2]]; [|done].
  destruct (categorize_success r2); [|done].
  rewrite after_assign. unfold mbind at 1, M_bind at 1.
  destruct (assign_to_projects w self st2) as [st3 [r3|e3]]; [|done].
  destruct (assign_success r3); [|done].
  rewrite after_verify. unfold mbind at 1, M_bind at 1.
  by destruct (verify_domains w st3) as [st4 [r4|e4]].
Qed.

Lemma gated_phases_extends w self st : extends st (gated_phases w self st).1.
Proof.
  rewrite gated_phases_unfold.
  pose proof (phase_extends w self Fetch st) as H1.
  destruct (after_phase w self Fetch st) as [st1 [[|]|e1]]; cbn [fst] in *; try done.
  pose proof (phase_extends w self Categorize st1) as H2.
  destruct (after_phase w self Categorize st1) as [st2 [[|]|e2]]; cbn [fst] in *;
    try by eapply extends_trans.
  pose proof (phase_extends w self Assign st2) as H3.
  destruct (after_phase w self Assign st2) as [st3 [[|]|e3]]; cbn [fst] in *;
    try by (eapply extends_trans; [|done]; eapply extends_trans).
  pose proof (phase_extends w self Verify st3) as H4.
  destruct (after_phase w self Verify st3) as [st4 [r4|e4]]; cbn [fst] in *;
    (eapply extends_trans; [|done]); (eapply extends_trans; [|done]);
    by eapply extends_trans.
Qed.

Lemma notify_extends w self st : extends st (_notify_completion w self st).1.
Proof.
  unfold _notify_completion, run_command. run_M. cbn.
  destruct (subprocess_run w _); cbn [fst].
  - apply extends_emit.
  - repeat (eapply extends_trans; [|first [apply extends_error|apply extends_emit]]).
    apply extends_refl.
  - repeat (eapply extends_trans; [|first [apply extends_error|apply extends_emit]]).
    apply extends_refl.
Qed.

Lemma invoked_snoc phase events e :
  invoked phase (events ++ [e]) = invoked phase events || invoked phase [e].
Proof. apply has_action_snoc. Qed.

Ltac trail_cases :=
  cbn [fst snd results trail emit on_results];
  rewrite ?save_attempts_action;
  unfold invoked, has_action; rewrite ?existsb_app; cbn;
  rewrite ?orb_false_r, ?orb_true_r.

Lemma phase_frame w self phase st :
  counts_outside phase (results (after_phase w self phase st).1)
    = counts_outside phase (results st)
  ∧ organization (results (after_phase w self phase st).1) = organization (results st)
  ∧ (∀ other, other ≠ phase →
       invoked other (trail (after_phase w self phase st).1) = invoked other (trail st))
  ∧ invoked phase (trail (after_phase w self phase st).1) = true
  ∧ save_attempts (trail (after_phase w self phase st).1) = save_attempts (trail st).
Proof.
  destruct phase; cbn [after_phase];
    unfold fetch_domains, categorize_domains, assign_to_projects, verify_domains,
      run_command; run_M.
  - destruct (subprocess_run w fetch_command); cbn;
      [destruct (json_loads w stdout); cbn; [destruct (stage_domains w _); cbn|]| |];
      (split; [reflexivity|]); (split; [reflexivity|]);
      (split; [intros other Hother; destruct other; try done; by trail_cases|]);
      split; by trail_cases.
  - destruct (subprocess_run w _); cbn;
      [destruct (organization_file w); cbn| |];
      (split; [reflexivity|]); (split; [reflexivity|]);
      (split; [intros other Hother; destruct other; try done; by trail_cases|]);
      split; by trail_cases.
  - destruct (subprocess_run w assign_command); cbn;
      [destruct (parse_assignments _ _); cbn| |];
      (split; [reflexivity|]); (split; [reflexivity|]);
      (split; [intros other Hother; destruct other; try done; by trail_cases|]);
      split; by trail_cases.
  - destruct (subprocess_run w verify_command); cbn;
      [destruct (parse_verification _) as [[verified failed]|]; cbn| |];
      (split; [reflexivity|]); (split; [reflexivity|]);
      (split; [intros other Hother; destruct other; try done; by trail_cases|]);
      split; by trail_cases.
Qed.

(** ** Further properties of the phases *)

Lemma pipeline_extends w self st : extends st (run_full_pipeline w self st).1.
Proof.
  destruct (gated_phases_returns w self (emit pipeline_start st)) as [st1 Hphases].
  assert (extends st st1) as Hst1.
  { eapply extends_trans; [apply extends_emit|].
    pose proof (gated_phases_extends w self (emit pipeline_start st)) as Hext.
    by rewrite Hphases in Hext. }
  destruct (write_report w (save_attempts (trail st1)) (results st1)) as [text|] eqn:Hsave.
  - destruct (not_saved_outcome w self st st1 text Hphases Hsave)
      as (event & o & -> & _ & _).
    cbn [fst]. eapply extends_trans; [exact Hst1|].
    unfold before_second_save.
    repeat (eapply extends_trans;
            [|first [apply extends_error|apply extends_emit|apply extends_set_success]]).
    apply extends_refl.
  - destruct (run_full_pipeline_saved w self st st1 Hphases Hsave)
      as (st3 & Hnotify & ->).
    cbn [fst]. eapply extends_trans; [exact Hst1|].
    eapply extends_trans; [|apply extends_emit].
    pose proof (notify_extends w self (before_notification st1)) as Hext.
    rewrite Hnotify in Hext. cbn [fst] in Hext.
    eapply extends_trans; [|exact Hext].
    unfold before_notification.
    apply (extends_trans _ (emit (ReportSaved (results st1)) st1));
      [apply extends_emit|split; reflexivity].
Qed.

Lemma phase_fails_unless_completed w self phase st :
  (∀ stdout, subprocess_run w (phase_command self phase) ≠ Completed stdout) →
  ∃ st', after_phase w self phase st = (st', Returned false).
Proof.
  intros Hrun. destruct phase; cbn [phase_command] in Hrun;
    unfold after_phase, fetch_domains, categorize_domains, assign_to_projects,
      verify_domains, run_command; run_M;
    destruct (subprocess_run w _) as [stdout| |]; cbn;
    first [by destruct (Hrun stdout)|by eexists].
Qed.

(** X1: a phase, the notifier and the whole pipeline only ever add to
    [errors] and to the trail: what was there before is still there, in
    the same order, at the start of what is there after. *)
Theorem run_only_adds_errors_and_events w self st :
  (∀ phase, extends st (after_phase w self phase st).1)
  ∧ extends st (_notify_completion w self st).1
  ∧ extends st (run_full_pipeline w self st).1.
Proof.
  split; [intros phase; apply phase_extends|].
  split; [apply notify_extends|apply pipeline_extends].
Qed.

(** X2: a phase never raises; it leaves the [success] of the run summary
    alone; and its result agrees with what it did to [errors]: a result
    with success leaves [errors] as it was, a failed one has appended one
    or two entries, the last being '<phase> failed: ...'. *)
Theorem phase_result_agrees_with_errors w self phase st :
  ∃ st' ok es,
    after_phase w self phase st = (st', Returned ok)
    ∧ errors (results st') = errors (results st) ++ es
    ∧ success (results st') = success (results st)
    ∧ (if ok then es = [] else failure_entries phase es).
Proof.
  destruct (phase_outcome w self phase st)
    as (st' & ok & es & events & Hrun & Herrors & _ & Hsuccess & Hes).
  by exists st', ok, es.
Qed.

(** X3: when the command of a phase cannot be started at all (any
    exception of [subprocess.run] other than a non-zero exit), the phase
    fails with a single new entry in [errors], the one of its own handler;
    [run_command] adds none. *)
Theorem launch_failure_adds_one_error w self phase st text :
  subprocess_run w (phase_command self phase) = NotRun text →
  ∃ st',
    after_phase w self phase st = (st', Returned false)
    ∧ errors (results st')
      = errors (results st) ++ [phase_label phase +:+ " failed: " +:+ text]
    ∧ has_action "command_error" (trail st') = has_action "command_error" (trail st).
Proof.
  intros Hrun. destruct phase; cbn [phase_command] in Hrun;
    unfold after_phase, fetch_domains, categorize_domains, assign_to_projects,
      verify_domains, run_command; run_M; rewrite Hrun; cbn;
    eexists; (split; [done|]); (split; [done|]);
    cbn [trail emit on_results]; rewrite !has_action_snoc; cbn;
    by rewrite !orb_false_r.
Qed.

Lemma launch_failure_adds_one_error_witness :
  ∃ st',
    after_phase unlaunchable_world default_manager Verify start_state
      = (st', Returned false)
    ∧ errors (results st')
      = ["Domain verification failed: [Errno 2] No such file or directory: 'node'"].
Proof.
  destruct (launch_failure_adds_one_error unlaunchable_world default_manager Verify
              start_state "[Errno 2] No such file or directory: 'node'" eq_refl)
    as (st' & Hrun & Herrors & _).
  exists st'. split; [exact Hrun|exact Herrors].
Defined.

(** X4: the Assign phase succeeds exactly when its command completes with
    exit status 0: reading the output never fails, whatever the text. *)
Theorem assign_succeeds_iff_command_completes w self st :
  (∃ st', after_phase w self Assign st = (st', Returned true))
  ↔ ∃ stdout, subprocess_run w assign_command = Completed stdout.
Proof.
  split.
  - intros [st' Hrun].
    destruct (subprocess_run w assign_command) as [stdout|code stderr text|text] eqn:Hcmd;
      [by eexists| |];
      (destruct (phase_fails_unless_completed w self Assign st) as [st'' Hrun'];
       [cbn [phase_command]; by rewrite Hcmd|]);
      rewrite Hrun in Hrun'; discriminate Hrun'.
  - intros [stdout Hcmd].
    destruct (parse_assignments_returns (project_mapping self) stdout)
      as (parsed & _ & Hparse).
    destruct (assign_to_projects_completed w self st stdout parsed Hcmd Hparse)
      as (st' & r & Hphase & Hok & _).
    exists st'. rewrite after_assign, Hphase. by rewrite Hok.
Qed.

(** ** Further properties of the Verify phase *)

Lemma split_from_absent a sep limit s :
  contains (String a sep) s = false →
  split_from (String a sep) limit 0 s = [s].
Proof.
  induction s as [|c s IH]; intros Hout; [done|].
  cbn [contains] in Hout. apply orb_false_iff in Hout as [Hstart Hrest].
  cbn [split_from]. rewrite Hstart, andb_false_r. by rewrite (IH Hrest).
Qed.

Lemma verify_line_ill_tagged acc line :
  well_tagged line = false →
  verify_line acc line = Raised (Exception "list index out of range").
Proof.
  destruct acc as [verified failed].
  unfold well_tagged, verify_line, before_delimiter.
  fold (is_success_line line) (is_failed_line line).
  destruct (index_first_split " - " line) as [before Hbefore].
  rewrite Hbefore. unfold index in Hbefore.
  destruct (split " - " line !! 0%nat) as [b|]; [|discriminate].
  injection Hbefore as ->. cbn [default from_option id mbind outcome_bind].
  destruct (is_success_line line).
  - intros Htag. unfold split. by rewrite (split_from_absent _ _ _ _ Htag).
  - destruct (is_failed_line line); [|done].
    intros Htag. unfold split. by rewrite (split_from_absent _ _ _ _ Htag).
Qed.

Lemma verify_lines_ill_tagged lines acc :
  forallb well_tagged lines = false →
  for_each verify_line acc lines = Raised (Exception "list index out of range").
Proof.
  revert acc. induction lines as [|line lines IH]; intros acc Hlines; [done|].
  cbn [forallb] in Hlines. cbn [for_each].
  destruct (well_tagged line) eqn:Hline.
  - destruct acc as [verified failed]. rewrite verify_line_well_tagged by done.
    cbn [mbind outcome_bind]. apply IH. by rewrite andb_true_l in Hlines.
  - by rewrite verify_line_ill_tagged.
Qed.

Lemma forallb_well_tagged lines :
  forallb well_tagged lines = true ↔ Forall (λ line, well_tagged line = true) lines.
Proof.
  rewrite forallb_forall, Forall_forall.
  split; intros H line Hin; apply H; by apply list_elem_of_In.
Qed.

(** X5: when the verification command completes, the Verify phase
    succeeds exactly when the tag that classifies each line stands before
    that line's first ' - '.  Otherwise reading the output raises: the
    phase fails with the single entry
    'Domain verification failed: list index out of range', whatever the
    other lines say, and [domains_verified] is left as it was. *)
Theorem verify_fails_on_misplaced_tag w self st stdout :
  subprocess_run w verify_command = Completed stdout →
  ∃ st' ok,
    after_phase w self Verify st = (st', Returned ok)
    ∧ (ok = true ↔ Forall (λ line, well_tagged line = true) (splitlines stdout))
    ∧ (ok = false →
       errors (results st')
         = errors (results st) ++ ["Domain verification failed: list index out of range"]
       ∧ domains_verified (results st') = domains_verified (results st)).
Proof.
  intros Hrun. rewrite after_verify.
  destruct (forallb well_tagged (splitlines stdout)) eqn:Hlines.
  - apply forallb_well_tagged in Hlines.
    pose proof (verify_lines_well_tagged _ [] [] Hlines) as Hparse.
    destruct (verify_domains_completed w st stdout _ _ Hrun Hparse)
      as (st' & r & -> & -> & _).
    exists st', true. by repeat split.
  - pose proof (verify_lines_ill_tagged _ ([], []) Hlines) as Hparse.
    unfold verify_domains, run_command. run_M. rewrite Hrun. cbn.
    unfold parse_verification. rewrite Hparse. cbn.
    eexists _, false. split; [done|]. split; [|done].
    split; [done|]. intros Hall%forallb_well_tagged. congruence.
Qed.

Lemma verify_fails_on_misplaced_tag_witness :
  ∃ st',
    after_phase (printing_world "x.com - [SUCCESS]") default_manager Verify start_state
      = (st', Returned false)
    ∧ errors (results st') = ["Domain verification failed: list index out of range"].
Proof.
  destruct (verify_fails_on_misplaced_tag (printing_world "x.com - [SUCCESS]")
              default_manager start_state "x.com - [SUCCESS]" eq_refl)
    as (st' & ok & Hrun & Hok & Hfailed).
  assert (ok = false) as ->.
  { destruct ok; [|done]. destruct Hok as [Hall _].
    pose proof (Hall eq_refl) as Hlines.
    apply forallb_well_tagged in Hlines. vm_compute in Hlines. discriminate Hlines. }
  exists st'. split; [exact Hrun|]. by destruct (Hfailed eq_refl) as [-> _].
Defined.

(** X6: when the verification command completes with well tagged output,
    the phase succeeds and adds nothing to [errors], however many lines
    are tagged [FAILED]: [domains_verified] and [verified_count] are the
    number of lines read as verified, [failed_count] the number of lines
    read as failed. *)
Theorem verify_counts_lines_without_recording_errors w st stdout :
  subprocess_run w verify_command = Completed stdout →
  Forall (λ line, well_tagged line = true) (splitlines stdout) →
  ∃ st' r,
    verify_domains w st = (st', Returned r)
    ∧ verify_success r = true
    ∧ errors (results st') = errors (results st)
    ∧ domains_verified (results st')
      = length (List.filter is_success_line (splitlines stdout))
    ∧ verified_count r = domains_verified (results st')
    ∧ failed_count r
      = Some (length (List.filter
                        (λ line, negb (is_success_line line) && is_failed_line line)
                        (splitlines stdout))).
Proof.
  intros Hrun Hlines.
  pose proof (verify_lines_well_tagged _ [] [] Hlines) as Hparse.
  destruct (verify_domains_completed w st stdout _ _ Hrun Hparse)
    as (st' & r & Hphase & Hok & _ & _ & Hcount & Hfailed & Hres).
  exists st', r. rewrite Hres, Hcount, Hfailed. cbn [app].
  rewrite !length_fmap. by repeat split.
Qed.

Lemma verify_counts_lines_without_recording_errors_witness :
  ∃ st' r,
    verify_domains (printing_world (join newline sample_verify_lines)) start_state
      = (st', Returned r)
    ∧ errors (results st') = []
    ∧ domains_verified (results st') = 1%nat
    ∧ failed_count r = Some 1%nat.
Proof.
  destruct (verify_counts_lines_without_recording_errors
              (printing_world (join newline sample_verify_lines)) start_state
              (join newline sample_verify_lines) eq_refl)
    as (st' & r & Hphase & _ & Herrors & Hverified & _ & Hfailed).
  - assert (splitlines (join newline sample_verify_lines) = sample_verify_lines)
      as -> by (vm_compute; reflexivity).
    repeat (apply Forall_cons_2; [vm_compute; reflexivity|]). apply Forall_nil_2.
  - exists st', r. split; [exact Hphase|]. split; [exact Herrors|].
    split; [rewrite Hverified|rewrite Hfailed]; vm_compute; reflexivity.
Defined.

(** ** Further properties of the Categorize and Fetch phases *)



(** X8: when the dry run completes but leaves no organization file, the
    Categorize phase fails with the single entry
    'Domain categorization failed: Domain organization file not found:
    <root>/temp/domain-organization.json' and writes neither of its
    counts. *)
Theorem categorize_needs_organization_file w self st stdout :
  subprocess_run w (categorize_command self) = Completed stdout →
  organization_file w = OrgMissing →
  ∃ st' r,
    categorize_domains w self st = (st', Returned r)
    ∧ categorize_success r = false
    ∧ families r = None
    ∧ errors (results st')
      = errors (results st)
        ++ ["Domain categorization failed: Domain organization file not found: "
              +:+ root_dir self +:+ "/temp/domain-organization.json"]
    ∧ families_identified (results st') = families_identified (results st)
    ∧ domains_categorized (results st') = domains_categorized (results st).
Proof.
  intros Hrun Hfile. unfold categorize_domains, run_command. run_M.
  rewrite Hrun. cbn. rewrite Hfile. cbn.
  eexists _, _. split; [done|]. cbn. by repeat split.
Qed.

Lemma categorize_needs_organization_file_witness :
  ∃ st' r,
    categorize_domains world_without_organization default_manager start_state
      = (st', Returned r)
    ∧ categorize_success r = false
    ∧ errors (results st')
      = ["Domain categorization failed: Domain organization file not found: /srv/aixtiv/temp/domain-organization.json"].
Proof.
  destruct (categorize_needs_organization_file world_without_organization
              default_manager start_state "done" eq_refl eq_refl)
    as (st' & r & Hphase & Hfailed & _ & Herrors & _).
  exists st', r. split; [exact Hphase|]. split; [exact Hfailed|exact Herrors].
Defined.

Lemma kept_domains_length self loaded :
  (length (kept_domains self loaded) <= length loaded)%nat.
Proof.
  unfold kept_domains. destruct (domainAccountId (config self)); [|done].
  apply List.filter_length_le.
Qed.

(** X9: when the listing command completes, its output decodes and the
    staging file is written, the Fetch phase succeeds and adds nothing to
    [errors]; [domains_fetched] is the number of domains kept, which is
    the number decoded when no account identifier is configured and never
    more than it. *)
Theorem fetch_counts_kept_domains w self st stdout loaded :
  subprocess_run w fetch_command = Completed stdout →
  json_loads w stdout = Returned loaded →
  stage_domains w (kept_domains self loaded) = None →
  ∃ st' r,
    fetch_domains w self st = (st', Returned r)
    ∧ fetch_success r = true
    ∧ fetch_domains_list r = Some (kept_domains self loaded)
    ∧ errors (results st') = errors (results st)
    ∧ domains_fetched (results st') = length (kept_domains self loaded)
    ∧ domains_count r = domains_fetched (results st')
    ∧ (domains_fetched (results st') <= length loaded)%nat
    ∧ (domainAccountId (config self) = None →
       domains_fetched (results st') = length loaded).
Proof.
  intros Hrun Hloads Hstage. unfold fetch_domains, run_command. run_M.
  rewrite Hrun. cbn. rewrite Hloads. cbn. fold (kept_domains self loaded).
  rewrite Hstage. cbn.
  eexists _, _. split; [done|]. cbn. repeat split; try done.
  - apply kept_domains_length.
  - intros Hnone. unfold kept_domains. by rewrite Hnone.
Qed.

Lemma fetch_counts_kept_domains_witness :
  ∃ st' r,
    fetch_domains (listing_world None) account_manager start_state = (st', Returned r)
    ∧ fetch_domains_list r = Some ["coaching2100.com"; "shop.COACHING2100.net"]
    ∧ domains_fetched (results st') = 2%nat.
Proof.
  destruct (fetch_counts_kept_domains (listing_world None) account_manager start_state
              "[]" ["coaching2100.com"; "example.org"; "shop.COACHING2100.net"]
              eq_refl eq_refl eq_refl)
    as (st' & r & Hphase & _ & Hlist & _ & Hcount & _).
  exists st', r. split; [exact Hphase|].
  split; [rewrite Hlist|rewrite Hcount]; vm_compute; reflexivity.
Defined.

(** X10: when the staging file cannot be written, the Fetch phase fails
    with the single entry 'Domain fetch failed: <text>', yet
    [domains_fetched] already holds the number of domains kept: the count
    is written before the file. *)
Theorem fetch_staging_failure_keeps_count w self st stdout loaded text :
  subprocess_run w fetch_command = Completed stdout →
  json_loads w stdout = Returned loaded →
  stage_domains w (kept_domains self loaded) = Some text →
  ∃ st' r,
    fetch_domains w self st = (st', Returned r)
    ∧ fetch_success r = false
    ∧ domains_file r = None
    ∧ fetch_error r = Some text
    ∧ errors (results st') = errors (results st) ++ ["Domain fetch failed: " +:+ text]
    ∧ domains_fetched (results st') = length (kept_domains self loaded).
Proof.
  intros Hrun Hloads Hstage. unfold fetch_domains, run_command. run_M.
  rewrite Hrun. cbn. rewrite Hloads. cbn. fold (kept_domains self loaded).
  rewrite Hstage. cbn.
  eexists _, _. split; [done|]. cbn. by repeat split.
Qed.

Lemma fetch_staging_failure_keeps_count_witness :
  ∃ st' r,
    fetch_domains (listing_world (Some "read-only file system")) account_manager
      start_state = (st', Returned r)
    ∧ fetch_success r = false
    ∧ errors (results st') = ["Domain fetch failed: read-only file system"]
    ∧ domains_fetched (results st') = 2%nat.
Proof.
  destruct (fetch_staging_failure_keeps_count
              (listing_world (Some "read-only file system")) account_manager
              start_state "[]"
              ["coaching2100.com"; "example.org"; "shop.COACHING2100.net"]
              "read-only file system" eq_refl eq_refl eq_refl)
    as (st' & r & Hphase & Hfailed & _ & _ & Herrors & Hcount).
  exists st', r. split; [exact Hphase|]. split; [exact Hfailed|].
  split; [exact Herrors|]. rewrite Hcount. vm_compute. reflexivity.
Defined.

(** X11: when the output of the listing command does not decode, the
    Fetch phase fails with the single entry
    'Domain fetch failed: <text of the exception>' and leaves
    [domains_fetched] as it was. *)
Theorem fetch_undecodable_output_is_recorded w self st stdout e :
  subprocess_run w fetch_command = Completed stdout →
  json_loads w stdout = Raised e →
  ∃ st' r,
    fetch_domains w self st = (st', Returned r)
    ∧ fetch_success r = false
    ∧ fetch_domains_list r = None
    ∧ errors (results st')
      = errors (results st) ++ ["Domain fetch failed: " +:+ str_exn e]
    ∧ domains_fetched (results st') = domains_fetched (results st).
Proof.
  intros Hrun Hloads. unfold fetch_domains, run_command. run_M.
  rewrite Hrun. cbn. rewrite Hloads. cbn.
  eexists _, _. split; [done|]. cbn. by repeat split.
Qed.

Lemma fetch_undecodable_output_is_recorded_witness :
  ∃ st' r,
    fetch_domains garbled_listing_world default_manager start_state = (st', Returned r)
    ∧ fetch_success r = false
    ∧ errors (results st')
      = ["Domain fetch failed: Expecting value: line 1 column 1 (char 0)"]
    ∧ domains_fetched (results st') = 0%nat.
Proof.
  destruct (fetch_undecodable_output_is_recorded garbled_listing_world default_manager
              start_state "<html>"
              (Exception "Expecting value: line 1 column 1 (char 0)") eq_refl eq_refl)
    as (st' & r & Hphase & Hfailed & _ & Herrors & Hcount).
  exists st', r. split; [exact Hphase|]. split; [exact Hfailed|].
  split; [exact Herrors|exact Hcount].
Defined.

(** ** Further properties of the pipeline controller and of [main] *)

Lemma save_attempts_before_second_save st1 text :
  save_attempts (trail (before_second_save st1 text)) = S (save_attempts (trail st1)).
Proof.
  cbn [before_second_save on_results emit trail].
  by rewrite save_attempts_action, save_attempts_not_saved.
Qed.

(** X12: [run_full_pipeline] returns the run summary as it stands at the
    end of the run, unless the report cannot be written twice in a row:
    it raises exactly when the first attempt fails and the attempt made by
    its handler fails too, and then with the exception of that second
    attempt. *)
Theorem pipeline_raises_only_when_both_writes_fail w self st :
  ∃ st1,
    gated_phases w self (emit pipeline_start st) = (st1, Returned tt)
    ∧ (∀ r, (run_full_pipeline w self st).2 = Returned r →
            r = results (run_full_pipeline w self st).1)
    ∧ (∀ e, (run_full_pipeline w self st).2 = Raised e ↔
            ∃ text text',
              write_report w (save_attempts (trail st1)) (results st1) = Some text
              ∧ write_report w (S (save_attempts (trail st1)))
                  (results (before_second_save st1 text)) = Some text'
              ∧ e = Exception text').
Proof.
  destruct (gated_phases_returns w self (emit pipeline_start st)) as [st1 Hphases].
  exists st1. split; [done|].
  destruct (write_report w (save_attempts (trail st1)) (results st1)) as [text|] eqn:Hsave.
  - rewrite (run_full_pipeline_not_saved w self st st1 text Hphases Hsave).
    rewrite save_attempts_before_second_save.
    destruct (write_report w (S (save_attempts (trail st1))) _) as [text'|] eqn:Hagain;
      cbn [fst snd emit results].
    + split; [by intros r [=]|]. intros e. split.
      * intros [= <-]. by exists text, text'.
      * intros (t & t' & [= <-] & Hagain' & ->).
        rewrite Hagain in Hagain'. by injection Hagain' as <-.
    + split; [by intros r [= <-]|]. intros e. split; [by intros [=]|].
      intros (t & t' & [= <-] & Hagain' & _).
      rewrite Hagain in Hagain'. discriminate Hagain'.
  - destruct (run_full_pipeline_saved w self st st1 Hphases Hsave)
      as (st3 & _ & ->).
    cbn [fst snd emit results]. split; [by intros r [= <-]|].
    intros e. split; [by intros [=]|]. intros (t & t' & [=] & _).
Qed.

(** X13: the exit status of a full run is 0 when the final summary has
    [success] true and 1 otherwise, also when an exception leaves
    [run_full_pipeline]. *)
Theorem exit_status_reflects_success w project agent :
  (exit_status w project agent Full = 0%Z
   ↔ success (results (main w project agent Full).1) = true)
  ∧ (exit_status w project agent Full = 1%Z
     ↔ success (results (main w project agent Full).1) = false).
Proof.
  rewrite exit_status_full.
  by destruct (success (results (main w project agent Full).1)).
Qed.

Lemma phase_does_not_start_pipeline w self phase st :
  has_action "autoscale_pipeline_start" (trail (after_phase w self phase st).1)
  = has_action "autoscale_pipeline_start" (trail st).
Proof.
  destruct phase; cbn [after_phase];
    unfold fetch_domains, categorize_domains, assign_to_projects, verify_domains,
      run_command; run_M.
  - destruct (subprocess_run w fetch_command); cbn;
      [destruct (json_loads w stdout); cbn; [destruct (stage_domains w _); cbn|]| |];
      by trail_cases.
  - destruct (subprocess_run w _); cbn;
      [destruct (organization_file w); cbn| |];
      by trail_cases.
  - destruct (subprocess_run w assign_command); cbn;
      [destruct (parse_assignments _ _); cbn| |];
      by trail_cases.
  - destruct (subprocess_run w verify_command); cbn;
      [destruct (parse_verification _) as [[verified failed]|]; cbn| |];
      by trail_cases.
Qed.

(** X14: when a single phase is chosen on the command line, [main] runs
    that phase alone, from the state [__init__] leaves: no report is
    written, the pipeline is not started, and the exit status is 0 exactly
    when the result of the phase says success, although the [success] of
    the run summary itself is never set and stays false. *)
Theorem single_phase_run_writes_no_report w project agent choice phase :
  chosen_phase choice = Some phase →
  ∃ final ok,
    after_phase w (__init__ w project agent).1 phase (__init__ w project agent).2
      = (final, Returned ok)
    ∧ main w project agent choice = (final, Returned (if ok then 0%Z else 1%Z))
    ∧ exit_status w project agent choice = (if ok then 0%Z else 1%Z)
    ∧ success (results final) = false
    ∧ save_attempts (trail final) = 0%nat
    ∧ has_action "autoscale_pipeline_start" (trail final) = false.
Proof.
  intros Hchoice.
  destruct (phase_outcome w (__init__ w project agent).1 phase
              (__init__ w project agent).2)
    as (final & ok & es & events & Hrun & _ & _ & Hsuccess & _).
  destruct (phase_frame w (__init__ w project agent).1 phase
              (__init__ w project agent).2) as (_ & _ & _ & _ & Hsaves).
  exists final, ok. split; [done|].
  assert (main w project agent choice = (final, Returned (if ok then 0%Z else 1%Z)))
    as Hmain.
  { unfold main. destruct (__init__ w project agent) as [self st0] eqn:Hinit.
    cbn [fst snd] in Hrun.
    destruct choice, phase; try discriminate Hchoice;
      cbn [after_phase] in Hrun; unfold mbind at 1, M_bind at 1;
      rewrite Hrun; reflexivity. }
  split; [done|]. split; [unfold exit_status; by rewrite Hmain|].
  rewrite Hrun in Hsaves. cbn [fst] in Hsaves.
  split; [by rewrite Hsuccess|]. split; [by rewrite Hsaves|].
  pose proof (phase_does_not_start_pipeline w (__init__ w project agent).1 phase
                (__init__ w project agent).2) as Hstart.
  rewrite Hrun in Hstart. cbn [fst] in Hstart. by rewrite Hstart.
Qed.

Lemma single_phase_run_writes_no_report_witness :
  ∃ final,
    main (printing_world (join newline sample_verify_lines))
      "api-for-warp-drive" "DR_CLAUDE_AUTOMATION" OnlyVerify = (final, Returned 0%Z)
    ∧ success (results final) = false
    ∧ domains_verified (results final) = 1%nat
    ∧ save_attempts (trail final) = 0%nat.
Proof.
  destruct (single_phase_run_writes_no_report
              (printing_world (join newline sample_verify_lines))
              "api-for-warp-drive" "DR_CLAUDE_AUTOMATION" OnlyVerify Verify eq_refl)
    as (final & ok & Hphase & Hmain & _ & Hsuccess & Hsaves & _).
  assert ((after_phase (printing_world (join newline sample_verify_lines))
             (__init__ (printing_world (join newline sample_verify_lines))
                "api-for-warp-drive" "DR_CLAUDE_AUTOMATION").1 Verify
             (__init__ (printing_world (join newline sample_verify_lines))
                "api-for-warp-drive" "DR_CLAUDE_AUTOMATION").2).2 = Returned true)
    as Hok by (vm_compute; reflexivity).
  assert (domains_verified
            (results
               (after_phase (printing_world (join newline sample_verify_lines))
                  (__init__ (printing_world (join newline sample_verify_lines))
                     "api-for-warp-drive" "DR_CLAUDE_AUTOMATION").1 Verify
                  (__init__ (printing_world (join newline sample_verify_lines))
                     "api-for-warp-drive" "DR_CLAUDE_AUTOMATION").2).1) = 1%nat)
    as Hcount by (vm_compute; reflexivity).
  rewrite Hphase in Hok, Hcount. cbn [fst snd] in Hok, Hcount.
  injection Hok as ->.
  exists final. split; [exact Hmain|]. split; [exact Hsuccess|].
  split; [exact Hcount|exact Hsaves].
Defined.

Lemma invoked_pipeline_start phase st :
  invoked phase (trail (emit pipeline_start st)) = invoked phase (trail st).
Proof. cbn [emit trail]. apply invoked_emit_other. by destruct phase. Qed.

Lemma pipeline_keeps_invocations w self st st1 phase :
  gated_phases w self (emit pipeline_start st) = (st1, Returned tt) →
  invoked phase (trail (run_full_pipeline w self st).1) = invoked phase (trail st1).
Proof. intros Hphases. by apply pipeline_tail_leaves_phases. Qed.

(** X15: in a full run that starts from a trail with no phase in it, Fetch
    is always invoked, and each later phase is invoked exactly when every
    phase before it returned a result with success. *)
Theorem phases_run_only_after_success w self st :
  (∀ phase, invoked phase (trail st) = false) →
  let fetched := after_phase w self Fetch (emit pipeline_start st) in
  let categorized := after_phase w self Categorize fetched.1 in
  let assigned := after_phase w self Assign categorized.1 in
  let final := (run_full_pipeline w self st).1 in
  invoked Fetch (trail final) = true
  ∧ (invoked Categorize (trail final) = true ↔ fetched.2 = Returned true)
  ∧ (invoked Assign (trail final) = true
     ↔ fetched.2 = Returned true ∧ categorized.2 = Returned true)
  ∧ (invoked Verify (trail final) = true
     ↔ fetched.2 = Returned true ∧ categorized.2 = Returned true
       ∧ assigned.2 = Returned true).
Proof.
  intros Hfresh. cbv zeta.
  set (s0 := emit pipeline_start st).
  assert (∀ phase, invoked phase (trail s0) = false) as Hs0.
  { intros phase. unfold s0. by rewrite invoked_pipeline_start. }
  pose proof (gated_phases_unfold w self s0) as Hgated.
  destruct (phase_outcome w self Fetch s0) as (st1 & ok1 & ? & ? & Hf & _).
  destruct (phase_frame w self Fetch s0) as (_ & _ & Hothers1 & Hown1 & _).
  rewrite Hf in Hgated, Hothers1, Hown1 |- *. cbn [fst snd] in *.
  destruct ok1.
  2:{ rewrite !(pipeline_keeps_invocations w self st st1) by done.
      rewrite Hown1, !Hothers1, !Hs0 by done.
      intuition congruence. }
  destruct (phase_outcome w self Categorize st1) as (st2 & ok2 & ? & ? & Hc & _).
  destruct (phase_frame w self Categorize st1) as (_ & _ & Hothers2 & Hown2 & _).
  rewrite Hc in Hgated, Hothers2, Hown2 |- *. cbn [fst snd] in *.
  destruct ok2.
  2:{ rewrite !(pipeline_keeps_invocations w self st st2) by done.
      rewrite Hown2, !Hothers2, Hown1, !Hothers1, !Hs0 by done.
      intuition congruence. }
  destruct (phase_outcome w self Assign st2) as (st3 & ok3 & ? & ? & Ha & _).
  destruct (phase_frame w self Assign st2) as (_ & _ & Hothers3 & Hown3 & _).
  rewrite Ha in Hgated, Hothers3, Hown3 |- *. cbn [fst snd] in *.
  destruct ok3.
  2:{ rewrite !(pipeline_keeps_invocations w self st st3) by done.
      rewrite Hown3, !Hothers3, Hown2, !Hothers2, Hown1, !Hothers1, !Hs0 by done.
      intuition congruence. }
  destruct (phase_outcome w self Verify st3) as (st4 & ok4 & ? & ? & Hv & _).
  destruct (phase_frame w self Verify st3) as (_ & _ & Hothers4 & Hown4 & _).
  rewrite Hv in Hgated, Hothers4, Hown4. cbn [fst snd] in *.
  rewrite !(pipeline_keeps_invocations w self st st4) by done.
  rewrite Hown4, !Hothers4, Hown3, !Hothers3, Hown2, !Hothers2, Hown1 by done.
  intuition congruence.
Qed.

Lemma phases_run_only_after_success_witness :
  let final := (run_full_pipeline world_without_organization default_manager
                  start_state).1 in
  invoked Categorize (trail final) = true ∧ invoked Assign (trail final) = false.
Proof.
  destruct (phases_run_only_after_success world_without_organization default_manager
              start_state) as (_ & Hcategorize & Hassign & _).
  - intros phase. by destruct phase.
  - cbv zeta in *. split.
    + apply Hcategorize. vm_compute. reflexivity.
    + destruct (invoked Assign _) eqn:Hinvoked; [|done].
      destruct Hassign as [Hboth _]. destruct (Hboth eq_refl) as [_ Hfailed].
      vm_compute in Hfailed. discriminate Hfailed.
Defined.

Lemma failure_entries_not_nil phase es : failure_entries phase es → es ≠ [].
Proof. intros (text & [-> | (stderr & ->)]); discriminate. Qed.

Lemma errors_after_failed_phase w self phase st st' :
  after_phase w self phase st = (st', Returned false) → errors (results st') ≠ [].
Proof.
  intros Hrun.
  destruct (phase_outcome w self phase st)
    as (st'' & ok & es & events & Hrun' & Herrors & _ & _ & Hes).
  rewrite Hrun in Hrun'. injection Hrun' as <- <-.
  rewrite Herrors. intros [_ Hnil]%app_eq_nil.
  by apply (failure_entries_not_nil phase es).
Qed.

Lemma errors_nil_before w self phase st :
  errors (results (after_phase w self phase st).1) = [] → errors (results st) = [].
Proof.
  intros Hnil. destruct (phase_extends w self phase st) as [[k Hk] _].
  rewrite Hnil in Hk. symmetry in Hk. by apply app_eq_nil in Hk as [? _].
Qed.

(** X16: a full run ends with [success] true only if it started with no
    error recorded, all four phases were invoked, and the report was
    written at the first attempt (one attempt in all). *)
Theorem success_means_every_phase_ran w self st :
  success (results (run_full_pipeline w self st).1) = true →
  errors (results st) = []
  ∧ (∀ phase, invoked phase (trail (run_full_pipeline w self st).1) = true)
  ∧ save_attempts (trail (run_full_pipeline w self st).1) = S (save_attempts (trail st)).
Proof.
  intros Hsuccess.
  set (s0 := emit pipeline_start st).
  destruct (gated_phases_returns w self s0) as [stn Hphases].
  destruct (pipeline_success w self st stn Hphases) as [Hverdict _].
  rewrite Hsuccess in Hverdict.
  destruct (write_report w (save_attempts (trail stn)) (results stn)) as [text|] eqn:Hsave;
    [done|].
  symmetry in Hverdict. apply bool_decide_eq_true in Hverdict.
  apply length_zero_iff_nil in Hverdict.
  assert (save_attempts (trail (run_full_pipeline w self st).1)
          = S (save_attempts (trail stn))) as Hsaves.
  { destruct (run_full_pipeline_saved w self st stn Hphases Hsave)
      as (st3 & Hnotify & ->).
    destruct (notify_completion_outcome w self (before_notification stn))
      as (st3' & Hnotify' & _ & _ & _ & Hcount).
    rewrite Hnotify in Hnotify'. injection Hnotify' as <-.
    cbn [fst emit trail]. rewrite save_attempts_action, Hcount.
    cbn [before_notification on_results emit trail]. apply save_attempts_saved. }
  pose proof (gated_phases_unfold w self s0) as Hgated. rewrite Hphases in Hgated.
  destruct (phase_outcome w self Fetch s0) as (st1 & ok1 & ? & ? & Hf & _).
  destruct (phase_frame w self Fetch s0) as (_ & _ & _ & Hown1 & Hsave1).
  pose proof (errors_nil_before w self Fetch s0) as Hnil1.
  rewrite Hf in Hgated, Hown1, Hsave1, Hnil1. cbn [fst] in *.
  destruct ok1.
  2:{ injection Hgated as ->. by destruct (errors_after_failed_phase _ _ _ _ _ Hf). }
  destruct (phase_outcome w self Categorize st1) as (st2 & ok2 & ? & ? & Hc & _).
  destruct (phase_frame w self Categorize st1) as (_ & _ & Hothers2 & Hown2 & Hsave2).
  pose proof (errors_nil_before w self Categorize st1) as Hnil2.
  rewrite Hc in Hgated, Hothers2, Hown2, Hsave2, Hnil2. cbn [fst] in *.
  destruct ok2.
  2:{ injection Hgated as ->. by destruct (errors_after_failed_phase _ _ _ _ _ Hc). }
  destruct (phase_outcome w self Assign st2) as (st3 & ok3 & ? & ? & Ha & _).
  destruct (phase_frame w self Assign st2) as (_ & _ & Hothers3 & Hown3 & Hsave3).
  pose proof (errors_nil_before w self Assign st2) as Hnil3.
  rewrite Ha in Hgated, Hothers3, Hown3, Hsave3, Hnil3. cbn [fst] in *.
  destruct ok3.
  2:{ injection Hgated as ->. by destruct (errors_after_failed_phase _ _ _ _ _ Ha). }
  destruct (phase_outcome w self Verify st3) as (st4 & ok4 & ? & ? & Hv & _).
  destruct (phase_frame w self Verify st3) as (_ & _ & Hothers4 & Hown4 & Hsave4).
  pose proof (errors_nil_before w self Verify st3) as Hnil4.
  rewrite Hv in Hgated, Hothers4, Hown4, Hsave4, Hnil4. cbn [fst] in *.
  injection Hgated as ->.
  split; [|split].
  - specialize (Hnil1 (Hnil2 (Hnil3 (Hnil4 Hverdict)))). exact Hnil1.
  - intros phase. rewrite (pipeline_keeps_invocations w self st st4) by done.
    destruct phase.
    + by rewrite !Hothers4, !Hothers3, !Hothers2.
    + by rewrite !Hothers4, !Hothers3.
    + by rewrite !Hothers4.
    + done.
  - rewrite Hsaves, Hsave4, Hsave3, Hsave2, Hsave1.
    unfold s0, pipeline_start. cbn [emit trail]. by rewrite save_attempts_action.
Qed.

Lemma success_means_every_phase_ran_witness :
  let final :=
    (run_full_pipeline (sample_world (Completed "[]") denied (λ _, None))
       default_manager start_state).1 in
  invoked Verify (trail final) = true ∧ save_attempts (trail final) = 1%nat.
Proof.
  destruct (success_means_every_phase_ran
              (sample_world (Completed "[]") denied (λ _, None))
              default_manager start_state) as (_ & Hinvoked & Hsaves).
  - vm_compute. reflexivity.
  - cbv zeta. split; [apply Hinvoked|exact Hsaves].
Defined.

(** ** Further properties of [__init__] and of the Assign parser *)

Lemma map_fold_insert_is_fmap {A B} (f : A → B) (m : gmap string A) :
  map_fold (λ k x acc, <[k := f x]> acc) ∅ m = f <$> m.
Proof.
  apply (map_fold_weak_ind (λ r m, r = f <$> m)).
  - by rewrite fmap_empty.
  - intros k x m' r _ ->. by rewrite fmap_insert.
Qed.

(** X17: when the configuration lists domain families, the mapping of the
    new manager has exactly those families as keys, each bound to its
    "project" or, when it has none, to api-for-warp-drive; the built-in
    table plays no part, and the run summary starts empty. *)
Theorem configured_families_replace_default_table w project agent c listed :
  config_file w = Some c →
  domainFamilies c = Some listed →
  project_mapping (__init__ w project agent).1 = default "api-for-warp-drive" <$> listed
  ∧ dom (project_mapping (__init__ w project agent).1) = dom listed
  ∧ (∀ family,
       listed !! family = None →
       project_mapping (__init__ w project agent).1 !! family = None)
  ∧ results (__init__ w project agent).2 = fresh_results.
Proof.
  intros Hfile Hlisted.
  assert (project_mapping (__init__ w project agent).1
          = default "api-for-warp-drive" <$> listed) as Hmapping.
  { unfold __init__. cbn [fst project_mapping]. rewrite Hfile.
    cbn [default from_option id]. rewrite Hlisted.
    apply (map_fold_insert_is_fmap (default "api-for-warp-drive")). }
  split; [exact Hmapping|]. rewrite Hmapping.
  split; [apply dom_fmap_L|]. split; [|done].
  intros family Hnone. by rewrite lookup_fmap, Hnone.
Qed.

Lemma configured_families_replace_default_table_witness :
  project_mapping (__init__ configured_world "api-for-warp-drive" "DR").1
  = {[ "brand" := "brand-site"; "labs" := "api-for-warp-drive" ]}
  ∧ project_mapping (__init__ configured_world "api-for-warp-drive" "DR").1
      !! "character" = None.
Proof.
  destruct (configured_families_replace_default_table configured_world
              "api-for-warp-drive" "DR" sample_config
              {[ "brand" := Some "brand-site"; "labs" := None ]} eq_refl eq_refl)
    as (Hmapping & _ & Hnone & _).
  split.
  - rewrite Hmapping. vm_compute. reflexivity.
  - apply Hnone. vm_compute. reflexivity.
Defined.

Lemma total_length_insert_fresh (m : gmap string (list string)) p l :
  m !! p = None → total_length (<[p := l]> m) = (length l + total_length m)%nat.
Proof.
  intros Hnone. unfold total_length.
  by rewrite (map_to_list_insert m p l Hnone).
Qed.

Lemma total_length_append (m : gmap string (list string)) p l d :
  m !! p = Some l → total_length (<[p := l ++ [d]]> m) = S (total_length m).
Proof.
  intros Hsome.
  rewrite <- (insert_delete_id m p l Hsome) at 2.
  rewrite <- (insert_delete_eq m).
  rewrite !total_length_insert_fresh by apply lookup_delete_eq.
  rewrite length_app. cbn [length]. lia.
Qed.

Lemma total_length_of_empty_lists (m : gmap string (list string)) :
  (∀ p l, m !! p = Some l → l = []) → total_length m = 0%nat.
Proof.
  induction m as [|p l m Hnone IH] using map_ind; intros Hall; [done|].
  rewrite total_length_insert_fresh by done.
  rewrite (Hall p l) by apply lookup_insert_eq. cbn [length Nat.add].
  apply IH. intros q k Hq. apply (Hall q k).
  rewrite lookup_insert_ne; [done|]. intros ->. congruence.
Qed.

Lemma assigned_lines_snoc mapping lines line :
  assigned_lines mapping (lines ++ [line])
  = assigned_lines mapping lines
    ++ (if is_domain_line line
           && match most_recent_header lines with
              | Some project =>
                  bool_decide (project ≠ "")
                  && bool_decide (project ∈ (map_img mapping : gset string))
              | None => false
              end
        then [line] else []).
Proof.
  unfold assigned_lines.
  rewrite length_app, seq_app, omap_app. cbn [length seq Nat.add]. f_equal.
  - apply list_omap_ext, Forall_Forall2_diag, Forall_forall.
    intros i [_ Hi]%elem_of_seq. cbn [Nat.add] in Hi.
    rewrite lookup_app_l by done. rewrite take_app_le by lia. done.
  - cbn [omap list_omap]. rewrite list_lookup_middle by done.
    cbn [mbind option_bind]. rewrite take_app_length.
    by destruct (_ && _).
Qed.

Lemma assign_lines_count (mapping : gmap string string) lines :
  ∃ m,
    for_each assign_line (None, initial_assignments mapping) lines
      = Returned (most_recent_header lines, m)
    ∧ dom m = (map_img mapping : gset string)
    ∧ total_length m = length (assigned_lines mapping lines).
Proof.
  induction lines as [|line lines IH] using rev_ind.
  - exists (initial_assignments mapping). split; [done|]. split.
    + apply set_eq. intros p. rewrite elem_of_dom, initial_assignments_lookup.
      destruct (decide (p ∈ _)); [by split; eauto|]. split; [by intros [? ?]|done].
    + apply total_length_of_empty_lists. intros p l.
      rewrite initial_assignments_lookup. destruct (decide (p ∈ _)); congruence.
  - destruct IH as (m & Hrun & Hdom & Hcount). rewrite for_each_app, Hrun.
    cbn [mbind outcome_bind for_each].
    rewrite most_recent_header_snoc, assigned_lines_snoc, length_app.
    destruct (is_header line) eqn:Hh.
    + rewrite assign_line_header by done. exists m. split; [done|]. split; [done|].
      unfold is_domain_line. rewrite Hh. cbn [negb andb length]. lia.
    + rewrite assign_line_other by done. rewrite is_domain_line_other by done.
      destruct (truthy (most_recent_header lines)) eqn:Ht.
      * destruct (truthy_spec _ Ht) as (q & Hq & Hne). rewrite Hq.
        change (default "" (Some q)) with q. cbn [andb].
        rewrite (bool_decide_eq_true_2 (q ≠ "")) by done. cbn [andb].
        destruct (startswith "-" (strip line)); cbn [andb].
        2:{ exists m. split; [done|]. split; [done|]. cbn [length]. lia. }
        destruct (m !! q) as [l|] eqn:Hl.
        -- eexists. split; [done|]. split.
           ++ rewrite dom_insert_L, <- Hdom. apply subseteq_union_1_L.
              apply singleton_subseteq_l. by apply (elem_of_dom_2 m q l).
           ++ rewrite bool_decide_eq_true_2.
              ** rewrite (total_length_append m q l _ Hl). cbn [length]. lia.
              ** rewrite <- Hdom. by apply (elem_of_dom_2 m q l).
        -- exists m. split; [done|]. split; [done|].
           rewrite bool_decide_eq_false_2.
           ++ cbn [length]. lia.
           ++ rewrite <- Hdom. by apply not_elem_of_dom.
      * exists m. split; [done|]. split; [done|].
        assert (match most_recent_header lines with
                | Some project =>
                    bool_decide (project ≠ "")
                    && bool_decide (project ∈ (map_img mapping : gset string))
                | None => false
                end = false) as ->.
        { destruct (most_recent_header lines) as [[|c s]|]; try done. }
        rewrite andb_false_r. cbn [andb length]. lia.
Qed.

Lemma assigned_lines_length mapping lines :
  (length (assigned_lines mapping lines) <= length lines)%nat.
Proof.
  induction lines as [|line lines IH] using rev_ind; [done|].
  rewrite assigned_lines_snoc, !length_app. cbn [length].
  destruct (_ && _); cbn [length]; lia.
Qed.

(** X18: when the organize command completes, [domains_assigned] is the
    number of domain lines of its output whose most recently seen header
    names a project of the mapping (the empty name apart); so it is never
    more than the number of lines. *)
Theorem assign_counts_lines_under_known_headers w self st stdout :
  subprocess_run w assign_command = Completed stdout →
  ∃ st' r,
    assign_to_projects w self st = (st', Returned r)
    ∧ domains_assigned (results st')
      = length (assigned_lines (project_mapping self) (splitlines stdout))
    ∧ assignments_count r = domains_assigned (results st')
    ∧ (domains_assigned (results st') <= length (splitlines stdout))%nat.
Proof.
  intros Hrun.
  destruct (assign_lines_count (project_mapping self) (splitlines stdout))
    as (parsed & Hall & _ & Hcount).
  assert (parse_assignments (project_mapping self) stdout = Returned parsed) as Hparse.
  { unfold parse_assignments. by rewrite Hall. }
  destruct (assign_to_projects_completed w self st stdout parsed Hrun Hparse)
    as (st' & r & Hphase & _ & _ & Hr & Hres).
  exists st', r. rewrite Hres, Hr. cbn [set_domains_assigned domains_assigned].
  rewrite Hcount. repeat split; try done. apply assigned_lines_length.
Qed.

Lemma assign_counts_lines_under_known_headers_witness :
  ∃ st' r,
    assign_to_projects
      (printing_world
         (join newline ["- early.com"; "Firebase Project: flight-school"; "- x.com";
                        "Firebase Project: elsewhere"; "- lost.com"]))
      default_manager start_state = (st', Returned r)
    ∧ domains_assigned (results st') = 1%nat.
Proof.
  destruct (assign_counts_lines_under_known_headers
              (printing_world
                 (join newline ["- early.com"; "Firebase Project: flight-school";
                                "- x.com"; "Firebase Project: elsewhere";
                                "- lost.com"]))
              default_manager start_state
              (join newline ["- early.com"; "Firebase Project: flight-school";
                             "- x.com"; "Firebase Project: elsewhere"; "- lost.com"])
              eq_refl)
    as (st' & r & Hphase & Hcount & _).
  exists st', r. split; [exact Hphase|]. rewrite Hcount. vm_compute. reflexivity.
Defined.

(** X19: domain lines under a header with an empty name ('Firebase
    Project:' and nothing after the colon) are dropped even when the empty
    string is a project of the mapping: its list stays empty. *)
Theorem assign_drops_domains_under_unnamed_header (mapping : gmap string string) stdout :
  "" ∈ (map_img mapping : gset string) →
  ∃ parsed,
    parse_assignments mapping stdout = Returned parsed ∧ parsed !! "" = Some [].
Proof.
  intros Hin.
  destruct (assign_lines_spec mapping (splitlines stdout)) as (parsed & Hall & Hm).
  exists parsed. split; [unfold parse_assignments; by rewrite Hall|].
  rewrite Hm. by rewrite decide_True, decide_True.
Qed.

Lemma assign_drops_domains_under_unnamed_header_witness :
  ∃ parsed,
    parse_assignments {[ "misc" := "" ]} (join newline ["Firebase Project:"; "- x.com"])
      = Returned parsed
    ∧ parsed !! "" = Some [].
Proof.
  apply (assign_drops_domains_under_unnamed_header {[ "misc" := "" ]}
           (join newline ["Firebase Project:"; "- x.com"])).
  apply (bool_decide_unpack _). vm_compute. exact I.
Defined.

(** ** What is written and when the notifier runs *)

(** X20: a phase writes only its own counts and leaves the organization
    of the run summary alone; it announces itself in the trail and
    announces no other phase; and it writes no report. *)
Theorem phase_touches_only_its_own_counts w self phase st :
  counts_outside phase (results (after_phase w self phase st).1)
    = counts_outside phase (results st)
  ∧ organization (results (after_phase w self phase st).1) = organization (results st)
  ∧ (∀ other, other ≠ phase →
       invoked other (trail (after_phase w self phase st).1) = invoked other (trail st))
  ∧ invoked phase (trail (after_phase w self phase st).1) = true
  ∧ save_attempts (trail (after_phase w self phase st).1) = save_attempts (trail st).
Proof. apply phase_frame. Qed.

Lemma quiet_refl st : quiet st st.
Proof. split; [done|]. exists []. by rewrite app_nil_r. Qed.

Lemma saved_reports_app l k : saved_reports (l ++ k) = saved_reports l ++ saved_reports k.
Proof. apply omap_app. Qed.

Lemma notified_app l k : notified (l ++ k) = notified l || notified k.
Proof. apply existsb_app. Qed.

Lemma quiet_trans st1 st2 st3 : quiet st1 st2 → quiet st2 st3 → quiet st1 st3.
Proof.
  intros [Hs (e1 & Ht & Hr & Hn)] [Hs' (e2 & Ht' & Hr' & Hn')].
  split; [congruence|]. exists (e1 ++ e2).
  rewrite Ht', Ht, app_assoc, saved_reports_app, notified_app, Hr, Hr', Hn, Hn'.
  done.
Qed.

Lemma phase_quiet w self phase st : quiet st (after_phase w self phase st).1.
Proof.
  destruct phase; cbn [after_phase];
    unfold fetch_domains, categorize_domains, assign_to_projects, verify_domains,
      run_command; run_M.
  - destruct (subprocess_run w fetch_command); cbn;
      [destruct (json_loads w stdout); cbn; [destruct (stage_domains w _); cbn|]| |];
      (split; [reflexivity|]); eexists; phase_cases; (split; [reflexivity|]);
      by split.
  - destruct (subprocess_run w _); cbn;
      [destruct (organization_file w); cbn| |];
      (split; [reflexivity|]); eexists; phase_cases; (split; [reflexivity|]);
      by split.
  - destruct (subprocess_run w assign_command); cbn;
      [destruct (parse_assignments _ _); cbn| |];
      (split; [reflexivity|]); eexists; phase_cases; (split; [reflexivity|]);
      by split.
  - destruct (subprocess_run w verify_command); cbn;
      [destruct (parse_verification _) as [[verified failed]|]; cbn| |];
      (split; [reflexivity|]); eexists; phase_cases; (split; [reflexivity|]);
      by split.
Qed.

Lemma gated_phases_quiet w self st : quiet st (gated_phases w self st).1.
Proof.
  rewrite gated_phases_unfold.
  pose proof (phase_quiet w self Fetch st) as H1.
  destruct (after_phase w self Fetch st) as [st1 [[|]|e1]]; cbn [fst] in *; try done.
  pose proof (phase_quiet w self Categorize st1) as H2.
  destruct (after_phase w self Categorize st1) as [st2 [[|]|e2]]; cbn [fst] in *;
    try by eapply quiet_trans.
  pose proof (phase_quiet w self Assign st2) as H3.
  destruct (after_phase w self Assign st2) as [st3 [[|]|e3]]; cbn [fst] in *;
    try by (eapply quiet_trans; [|done]; eapply quiet_trans).
  pose proof (phase_quiet w self Verify st3) as H4.
  destruct (after_phase w self Verify st3) as [st4 [r4|e4]]; cbn [fst] in *;
    (eapply quiet_trans; [|done]); (eapply quiet_trans; [|done]);
    by eapply quiet_trans.
Qed.

Lemma notify_trail w self st :
  ∃ events,
    trail (_notify_completion w self st).1 = trail st ++ events
    ∧ saved_reports events = []
    ∧ notified events = true.
Proof.
  unfold _notify_completion, run_command. run_M. cbn.
  destruct (subprocess_run w _); cbn; eexists; phase_cases;
    (split; [reflexivity|]); by split.
Qed.

Lemma pipeline_trail w self st :
  ∃ st1 events,
    gated_phases w self (emit pipeline_start st) = (st1, Returned tt)
    ∧ quiet st st1
    ∧ trail (run_full_pipeline w self st).1 = trail st1 ++ events
    ∧ match write_report w (save_attempts (trail st1)) (results st1) with
      | None => saved_reports events = [results st1] ∧ notified events = true
      | Some text =>
          (saved_reports events = [] ∨ saved_reports events = [results (before_second_save st1 text)])
          ∧ notified events = false
      end.
Proof.
  destruct (gated_phases_returns w self (emit pipeline_start st)) as [st1 Hphases].
  assert (quiet st st1) as Hquiet.
  { eapply quiet_trans; [|pose proof (gated_phases_quiet w self (emit pipeline_start st)) as H;
                           rewrite Hphases in H; exact H].
    split; [done|]. by exists [pipeline_start]. }
  destruct (write_report w (save_attempts (trail st1)) (results st1)) as [text|] eqn:Hsave.
  - destruct (not_saved_outcome w self st st1 text Hphases Hsave)
      as (event & o & Hrun & Hevent & _).
    exists st1. eexists. split; [done|]. split; [done|]. rewrite Hrun, Hsave.
    cbn [fst emit trail before_second_save on_results]. rewrite <- !app_assoc.
    split; [reflexivity|]. cbn [app].
    destruct Hevent as [-> | ->]; cbn; (split; [|done]); [by right|by left].
  - destruct (run_full_pipeline_saved w self st st1 Hphases Hsave)
      as (st3 & Hnotify & Hrun).
    destruct (notify_trail w self (before_notification st1))
      as (events & Htrail & Hreports & Hnotified).
    rewrite Hnotify in Htrail. cbn [fst] in Htrail.
    exists st1. eexists. split; [done|]. split; [done|]. rewrite Hrun, Hsave.
    cbn [fst emit trail]. rewrite Htrail.
    cbn [before_notification on_results emit trail]. rewrite <- !app_assoc.
    split; [reflexivity|].
    rewrite (saved_reports_app [_]), (notified_app [_]), saved_reports_app, notified_app.
    rewrite Hreports, Hnotified. by split.
Qed.

(** X21: a full run started by [main] writes at most one report, and the
    report it writes always says [success] false, even when the run ends
    with [success] true: the report is written before [success] is
    computed. *)
Theorem reports_of_a_full_run_say_failure w project agent :
  (length (saved_reports (trail (main w project agent Full).1)) <= 1)%nat
  ∧ ∀ r, r ∈ saved_reports (trail (main w project agent Full).1) → success r = false.
Proof.
  rewrite main_full_state.
  destruct (pipeline_trail w (__init__ w project agent).1 (__init__ w project agent).2)
    as (st1 & events & _ & [Hsuccess (before & Hbefore & Hreports & _)] & -> & Hevents).
  rewrite Hbefore, !saved_reports_app, Hreports.
  assert (saved_reports (trail (__init__ w project agent).2) = []) as -> by reflexivity.
  cbn [app].
  cbn [__init__ snd results success fresh_results] in Hsuccess.
  destruct (write_report w _ _) as [text|].
  - destruct Hevents as [[-> | ->] _]; cbn [length]; (split; [lia|]); intros r Hr.
    + by apply elem_of_nil in Hr.
    + by apply list_elem_of_singleton in Hr as ->.
  - destruct Hevents as [-> _]. cbn [length]. split; [lia|]. intros r Hr.
    by apply list_elem_of_singleton in Hr as ->.
Qed.

(** X22: in a full run the notifier's command is run exactly when the
    first attempt to write the report succeeds; after a failed first
    attempt the handler writes again and returns without notifying. *)
Theorem notifier_runs_only_after_first_write w self st :
  notified (trail st) = false →
  ∃ st1,
    gated_phases w self (emit pipeline_start st) = (st1, Returned tt)
    ∧ (notified (trail (run_full_pipeline w self st).1) = true
       ↔ write_report w (save_attempts (trail st1)) (results st1) = None).
Proof.
  intros Hfresh.
  destruct (pipeline_trail w self st)
    as (st1 & events & Hphases & [_ (before & Hbefore & _ & Hquiet)] & -> & Hevents).
  exists st1. split; [done|].
  assert (notified (trail st1 ++ events) = notified events) as ->.
  { by rewrite Hbefore, !notified_app, Hfresh, Hquiet. }
  destruct (write_report w _ _) as [text|]; destruct Hevents as [_ ->]; by split.
Qed.

Lemma notifier_runs_only_after_first_write_witness :
  notified
    (trail (run_full_pipeline
              (sample_world (Completed "[]") (Completed "")
                 (λ attempt, if attempt is 0%nat then Some "disk full" else None))
              default_manager start_state).1) = false.
Proof.
  destruct (notifier_runs_only_after_first_write
              (sample_world (Completed "[]") (Completed "")
                 (λ attempt, if attempt is 0%nat then Some "disk full" else None))
              default_manager start_state) as (st1 & Hphases & Hnotified).
  - vm_compute. reflexivity.
  - destruct (notified _) eqn:Hran; [|done].
    destruct Hnotified as [Hwritten _]. specialize (Hwritten eq_refl).
    assert (st1
            = (gated_phases
                 (sample_world (Completed "[]") (Completed "")
                    (λ attempt, if attempt is 0%nat then Some "disk full" else None))
                 default_manager (emit pipeline_start start_state)).1) as Hst1
      by (by rewrite Hphases).
    rewrite Hst1 in Hwritten. vm_compute in Hwritten. discriminate Hwritten.
Defined.
